(** * Extraction of the Business Term / form index mapping

    A shallow embedding of [extract_indices_mapping] (manage.py): the sheet
    name patterns, the per-sheet clean-up of the frame, the loop that splits
    the "Level" and "Element" cells of each row, and the two [explode]
    calls that turn the split cells into one row per placement and one row
    per eForms notice.

    Python [str] values are modelled as [string]; a character is a code
    point below 256, on which the classes [\d], [\w], whitespace and
    printability are those of Python for the Latin-1 range.  The input is
    what [read_excel] returns for each sheet, with the columns the command
    names; the copies of the frames written when DEBUG is set have no part
    in the result and are left out. *)

From Stdlib Require Import String Ascii List Bool Arith Lia DecimalString Permutation.
Import ListNotations.
Open Scope string_scope.
Open Scope list_scope.
Open Scope nat_scope.

Set Implicit Arguments.

(* ================================================================== *)
(** ** Python string and list primitives *)

Module Py.

Definition nl : ascii := "010"%char.
Definition tab : ascii := "009"%char.
Definition cr : ascii := "013"%char.
Definition esc : ascii := "027"%char.
Definition squote : ascii := "039"%char.
Definition dquote : ascii := "034"%char.
Definition backslash : ascii := "092"%char.

(** The one-character string [c]. *)
Definition chr (c : ascii) : string := String c "".

(** ["\n"] *)
Definition NL : string := chr nl.

(** ["\n".join(l)], used to write down cells of several lines. *)
Definition lines (l : list string) : string := String.concat NL l.

(** [c in s], for a one-character [c]. *)
Fixpoint contains (c : ascii) (s : string) : bool :=
  match s with
  | "" => false
  | String a t => Ascii.eqb a c || contains c t
  end.

(** [s.split(sep)], for a one-character [sep]. *)
Fixpoint split (sep : ascii) (s : string) : list string :=
  match s with
  | "" => [""]
  | String a t =>
      if Ascii.eqb a sep then "" :: split sep t
      else match split sep t with
           | h :: r => String a h :: r
           | [] => [chr a]
           end
  end.

(** Leading characters satisfying [p] removed. *)
Fixpoint lstrip_by (p : ascii -> bool) (s : string) : string :=
  match s with
  | "" => ""
  | String a t => if p a then lstrip_by p t else s
  end.

(** Trailing characters satisfying [p] removed. *)
Fixpoint rstrip_by (p : ascii -> bool) (s : string) : string :=
  match s with
  | "" => ""
  | String a t =>
      match rstrip_by p t with
      | "" => if p a then "" else chr a
      | t' => String a t'
      end
  end.

(** [s.lstrip(c)] and [s.strip(c)], for a one-character [c]. *)
Definition lstrip (c : ascii) (s : string) : string := lstrip_by (Ascii.eqb c) s.
Definition strip (c : ascii) (s : string) : string :=
  rstrip_by (Ascii.eqb c) (lstrip_by (Ascii.eqb c) s).

(** [str.isspace] on one character. *)
Definition isspace (a : ascii) : bool :=
  let n := nat_of_ascii a in
  (((9 <=? n) && (n <=? 13)) || ((28 <=? n) && (n <=? 32))
   || (n =? 133) || (n =? 160))%nat.

(** [s.strip()] *)
Definition strip_ws (s : string) : string := rstrip_by isspace (lstrip_by isspace s).

(** [s.startswith(p)] *)
Fixpoint startswith (p s : string) : bool :=
  match p with
  | "" => true
  | String a p' =>
      match s with
      | "" => false
      | String b s' => Ascii.eqb a b && startswith p' s'
      end
  end.

(** [s.replace(old, new)] for a non-empty [old]: occurrences are replaced
    from the left and do not overlap.  [skip] counts the characters of
    the occurrence just replaced that are still to be passed over. *)
Fixpoint replace_go (old new s : string) (skip : nat) : string :=
  match s with
  | "" => ""
  | String a t =>
      match skip with
      | S k => replace_go old new t k
      | 0 =>
          if startswith old s
          then new ++ replace_go old new t (String.length old - 1)
          else String a (replace_go old new t 0)
      end
  end.

Definition replace (old new s : string) : string := replace_go old new s 0.

(** [l * n] on lists, the effect of [l *= n]. *)
Definition list_mul (A : Type) (l : list A) (n : nat) : list A :=
  concat (repeat l n).

(** [del l[i]] for an index in range. *)
Definition del (A : Type) (i : nat) (l : list A) : list A :=
  firstn i l ++ skipn (S i) l.

Definition hexdigit (n : nat) : ascii :=
  nth n (list_ascii_of_string "0123456789abcdef") "0"%char.

(** Characters that [repr] writes as an escape [\xNN]. *)
Definition unprintable (a : ascii) : bool :=
  let n := nat_of_ascii a in
  ((n <? 32) || (n =? 127) || ((128 <=? n) && (n <=? 160)) || (n =? 173))%nat.

Definition repr_char (quote a : ascii) : string :=
  if Ascii.eqb a quote || Ascii.eqb a backslash then String backslash (chr a)
  else if Ascii.eqb a tab then "\t"
  else if Ascii.eqb a nl then "\n"
  else if Ascii.eqb a cr then "\r"
  else if unprintable a
       then "\x" ++ String (hexdigit (nat_of_ascii a / 16))
                           (chr (hexdigit (nat_of_ascii a mod 16)))
  else chr a.

Fixpoint repr_body (quote : ascii) (s : string) : string :=
  match s with
  | "" => ""
  | String a t => repr_char quote a ++ repr_body quote t
  end.

(** [repr(s)]: single quotes, unless [s] has a single quote and no double
    quote. *)
Definition repr_quote (s : string) : ascii :=
  if contains squote s && negb (contains dquote s) then dquote else squote.

Definition repr (s : string) : string :=
  String (repr_quote s) (repr_body (repr_quote s) s ++ chr (repr_quote s)).

(** Reading back the first character written by [repr_char]; the quote
    itself, not escaped, ends what [repr] writes. *)
Definition hexval (a : ascii) : nat :=
  let n := nat_of_ascii a in if n <? 58 then n - 48 else n - 87.

Definition unrepr_char (quote : ascii) (s : string) : option (ascii * string) :=
  match s with
  | "" => None
  | String c t =>
      if Ascii.eqb c quote then None
      else if Ascii.eqb c backslash then
        match t with
        | "" => None
        | String d t' =>
            if Ascii.eqb d "t" then Some (tab, t')
            else if Ascii.eqb d "n" then Some (nl, t')
            else if Ascii.eqb d "r" then Some (cr, t')
            else if Ascii.eqb d "x" then
              match t' with
              | String h (String l t'') =>
                  Some (ascii_of_nat (16 * hexval h + hexval l), t'')
              | _ => None
              end
            else Some (d, t')
        end
      else Some (c, t)
  end.

(** [str(l)] for a list of strings. *)
Definition str_list (l : list string) : string :=
  "[" ++ String.concat ", " (map repr l) ++ "]".

End Py.

(* ================================================================== *)
(** ** Regular expressions, as Python's [re] matches them *)

Module Re.

(** The constructs that occur in the patterns of manage.py. *)
Inductive regex : Type :=
| Eps                             (* empty pattern *)
| Chr (c : ascii)                 (* a literal character *)
| Digit                           (* \d *)
| Seq (r1 r2 : regex)             (* r1 r2 *)
| Alt (r1 r2 : regex)             (* r1|r2 *)
| Opt (r : regex)                 (* r? *)
| Star (r : regex)                (* r* *)
| Group (n : nat) (r : regex)     (* the n-th capturing group *)
| Bol                             (* ^ *)
| Eol                             (* $ *)
| WordB                           (* \b *)
| Ahead (r : regex).              (* (?=r) *)

(** A literal string. *)
Fixpoint lit (s : string) : regex :=
  match s with
  | "" => Eps
  | String c t => Seq (Chr c) (lit t)
  end.

(** A sequence of patterns. *)
Definition seq (l : list regex) : regex := fold_right Seq Eps l.

(** A choice between literal words, [w1|w2|...]. *)
Fixpoint words (l : list string) : regex :=
  match l with
  | [] => Eps
  | [w] => lit w
  | w :: l' => Alt (lit w) (words l')
  end.

Definition isdigit (a : ascii) : bool :=
  let n := nat_of_ascii a in ((48 <=? n) && (n <=? 57))%nat.

(** [\w] on the code points below 256. *)
Definition isword (a : ascii) : bool :=
  let n := nat_of_ascii a in
  (((48 <=? n) && (n <=? 57)) || ((65 <=? n) && (n <=? 90)) || (n =? 95)
   || ((97 <=? n) && (n <=? 122))
   || (n =? 170) || (n =? 178) || (n =? 179) || (n =? 181) || (n =? 185)
   || (n =? 186) || ((188 <=? n) && (n <=? 190))
   || ((192 <=? n) && (n <=? 214)) || ((216 <=? n) && (n <=? 246))
   || (248 <=? n))%nat.

Definition isword_at (o : option ascii) : bool :=
  match o with
  | Some a => isword a
  | None => false
  end.

Definition first_char (s : string) : option ascii :=
  match s with
  | "" => None
  | String a _ => Some a
  end.

(** The text of the groups matched so far, latest first. *)
Definition captures : Type := list (nat * string).

(** A position in the subject is the character before it (none at the
    start of the string) and the text after it. *)
Definition result : Type := (captures * string)%type.
Definition cont : Type := option ascii -> string -> captures -> option result.

(** The iterations of [r*], [step] matching [r] once: as many as can be,
    each of them taking at least one character, so that [n], the number
    of characters left, bounds their number. *)
Fixpoint star_loop (step : option ascii -> string -> captures -> cont -> option result)
         (k : cont) (n : nat) (p : option ascii) (s : string) (g : captures)
         {struct n} : option result :=
  match n with
  | 0 => k p s g
  | S n' =>
      match step p s g
              (fun p' s' g' =>
                 if String.length s' <? String.length s
                 then star_loop step k n' p' s' g' else None) with
      | Some m => Some m
      | None => k p s g
      end
  end.

(** Backtracking matcher: [run r p s g k] matches [r] at the position
    [(p, s)] and hands the position after the match to [k]; the first
    alternative for which [k] succeeds wins.  [?] and [*] are greedy. *)
Fixpoint run (r : regex) (p : option ascii) (s : string) (g : captures)
         (k : cont) {struct r} : option result :=
  match r with
  | Eps => k p s g
  | Chr c =>
      match s with
      | String a t => if Ascii.eqb a c then k (Some a) t g else None
      | "" => None
      end
  | Digit =>
      match s with
      | String a t => if isdigit a then k (Some a) t g else None
      | "" => None
      end
  | Seq r1 r2 => run r1 p s g (fun p' s' g' => run r2 p' s' g' k)
  | Alt r1 r2 =>
      match run r1 p s g k with
      | Some m => Some m
      | None => run r2 p s g k
      end
  | Opt r1 =>
      match run r1 p s g k with
      | Some m => Some m
      | None => k p s g
      end
  | Star r1 => star_loop (run r1) k (String.length s) p s g
  | Group n r1 =>
      run r1 p s g
        (fun p' s' g' =>
           k p' s'
             ((n, String.substring 0 (String.length s - String.length s') s) :: g'))
  | Bol =>
      match p with
      | None => k p s g
      | Some _ => None
      end
  | Eol => if String.eqb s "" || String.eqb s Py.NL then k p s g else None
  | WordB =>
      if xorb (isword_at p) (isword_at (first_char s)) then k p s g else None
  | Ahead r1 =>
      match run r1 p s g (fun _ _ g' => Some (g', "")) with
      | Some (g', _) => k p s g'
      | None => None
      end
  end.

(** A match of [r] at one position: the groups and the text after it. *)
Definition match_at (r : regex) (p : option ascii) (s : string) : option result :=
  run r p s [] (fun _ s' g => Some (g, s')).

(** [r.search(s)]: the leftmost position with a match. *)
Fixpoint search_from (r : regex) (p : option ascii) (s : string) : option result :=
  match match_at r p s with
  | Some m => Some m
  | None =>
      match s with
      | "" => None
      | String a t => search_from r (Some a) t
      end
  end.

Definition search (r : regex) (s : string) : option result := search_from r None s.

(** [m.group(n)] *)
Fixpoint lookup (n : nat) (g : captures) : option string :=
  match g with
  | [] => None
  | (i, v) :: g' => if Nat.eqb i n then Some v else lookup n g'
  end.

Definition group (n : nat) (m : result) : option string := lookup n (fst m).

(** Groups that take part in every match of [r]. *)
Fixpoint must_groups (r : regex) : list nat :=
  match r with
  | Seq r1 r2 => must_groups r1 ++ must_groups r2
  | Group n r1 => n :: must_groups r1
  | _ => []
  end.

(** The groups of [g] have a text in [g'] too. *)
Definition keeps (g g' : captures) : Prop :=
  forall n, lookup n g <> None -> lookup n g' <> None.

(** A match is a result of the continuation, called at some position with
    the groups met on the way. *)
Definition calls (r : regex) (step : option ascii -> string -> captures -> cont -> option result)
  : Prop :=
  forall p s g k m,
    step p s g k = Some m ->
    exists p' s' g',
      k p' s' g' = Some m /\ keeps g g'
      /\ forall n, In n (must_groups r) -> lookup n g' <> None.

(** [r.sub(repl, s)], where [repl] maps the matched text to its
    replacement.  Matches are taken from the left and do not overlap;
    [skip] counts the characters of the last match still to be passed
    over.  (The patterns substituted in manage.py match exactly one
    character.) *)
Fixpoint sub_go (r : regex) (repl : string -> string) (p : option ascii)
         (s : string) (skip : nat) : string :=
  match skip with
  | S k =>
      match s with
      | "" => ""
      | String a t => sub_go r repl (Some a) t k
      end
  | 0 =>
      match match_at r p s with
      | Some (_, s') =>
          let n := String.length s - String.length s' in
          repl (String.substring 0 n s) ++
          match s with
          | "" => ""
          | String a t =>
              match n with
              | 0 => String a (sub_go r repl (Some a) t 0)
              | S k => sub_go r repl (Some a) t k
              end
          end
      | None =>
          match s with
          | "" => ""
          | String a t => String a (sub_go r repl (Some a) t 0)
          end
      end
  end.

Definition sub (r : regex) (repl : string -> string) (s : string) : string :=
  sub_go r repl None s 0.

End Re.

(* ================================================================== *)
(** ** Frames, exceptions and terminal output *)

Module Frame.

(** Exceptions that leave [extract_indices_mapping]. *)
Inductive exn : Type :=
| ClickException (message : string)
| ValueError (message : string)
| AttributeError.

Inductive outcome (A : Type) : Type :=
| Raised (e : exn)
| Returned (a : A).
Arguments Raised {A} e.
Arguments Returned {A} a.

(** A line written by [click.echo] or [click.secho]. *)
Inductive colour : Type := yellow | red.
Record echo : Type := Echo { fg : option colour; text : string }.

(** A cell of the sheet as [read_excel] returns it: [None] is a missing
    value (an empty cell, or ["---"]). *)
Record sheet_row : Type := SheetRow {
  c_Empty : option string;          (* column 0 *)
  c_Indent_level : option string;   (* column 1 *)
  c_ID : option string;
  c_Name : option string;
  c_Element : option string;
  c_Level : option string;          (* column 8 *)
  c_rest : list (option string)     (* the other columns *)
}.

(** A row of the frame once the first column is dropped and the notice
    columns are added.  [C] is what a "Level" or "Element" cell holds and
    [N] what an "eformsNotice" cell holds: these change as the frame is
    split and exploded. *)
Record row (C N : Type) : Type := Row {
  Indent_level : string;
  ID : string;
  Name : string;
  Element : C;
  Level : C;
  eformsNotice : N;
  sfNotice : string;
  rest : list string
}.

Definition set_Level_Element (C C' N : Type) (r : row C N) (level element : C')
  : row C' N :=
  Row (Indent_level r) (ID r) (Name r) element level (eformsNotice r)
      (sfNotice r) (rest r).

Definition set_eformsNotice (C N N' : Type) (r : row C N) (n : N') : row C N' :=
  Row (Indent_level r) (ID r) (Name r) (Element r) (Level r) n
      (sfNotice r) (rest r).

(** A "Level" or "Element" cell after the loop over the rows: still the
    string, or the list it was split into. *)
Inductive cell : Type :=
| Scalar (s : string)
| Listy (l : list string).

(** [df.fillna('')] on one cell. *)
Definition fillna (c : option string) : string :=
  match c with
  | Some s => s
  | None => ""
  end.

Definition notna (A : Type) (c : option A) : bool :=
  match c with
  | Some _ => true
  | None => false
  end.

Definition isna (A : Type) (c : option A) : bool := negb (notna c).

(** The dtype of a column as [read_excel] gives it: float64 for a column
    with cells that are all missing, object for a column with a text and
    for a column without cells.  Only a column of dtype object has the
    [.str] accessor; selecting rows does not change the dtype. *)
Definition float64 (column : list (option string)) : bool :=
  match column with
  | [] => false
  | _ => forallb (@isna string) column
  end.

(** *** [DataFrame.explode]

    A scalar gives one row, a list one row per element and an empty list
    one row holding a missing value ([None]).  Exploding several columns
    at once needs, in every row, the same number of elements in each of
    the columns; an empty list and a scalar count as one. *)

Definition mylen (c : cell) : nat :=
  match c with
  | Scalar _ => 1
  | Listy [] => 1
  | Listy l => List.length l
  end.

Definition explode_cell (c : cell) : list (option string) :=
  match c with
  | Scalar s => [Some s]
  | Listy [] => [None]
  | Listy l => map Some l
  end.

Definition explode_row (N : Type) (r : row cell N) : list (row (option string) N) :=
  map (fun le => set_Level_Element r (fst le) (snd le))
      (combine (explode_cell (Level r)) (explode_cell (Element r))).

(** [df.explode(['Level', 'Element'])] *)
Definition explode_Level_Element (N : Type) (df : list (row cell N))
  : outcome (list (row (option string) N)) :=
  if forallb (fun r => mylen (Level r) =? mylen (Element r)) df
  then Returned (flat_map (@explode_row N) df)
  else Raised (ValueError "columns must have matching element counts").

Definition explode_list (l : list string) : list (option string) :=
  match l with
  | [] => [None]
  | _ => map Some l
  end.

Definition explode_notice_row (C : Type) (r : row C (list string))
  : list (row C (option string)) :=
  map (set_eformsNotice r) (explode_list (eformsNotice r)).

(** [df.explode('eformsNotice')] *)
Definition explode_eformsNotice (C : Type) (df : list (row C (list string)))
  : list (row C (option string)) :=
  flat_map (@explode_notice_row C) df.

End Frame.

(* ================================================================== *)
(** ** [extract_indices_mapping] *)

Module Manage.
Import Py Re Frame.

Definition ignore_sheets : list string :=
  [ "Annex table 2";
    "eN40 vs F20";
    "Legend";
    "Legend Annex table 2";
    "S.F. vs eForms mapping list " ].

(** The patterns "^F\d\d vs eN\d\d( \(2\))?$" and
    "^SF\d\d vs eForm ?\d\d(,\d\d)*$". *)
Definition ignore_sheet_regex : list regex :=
  [ seq [Bol; Chr "F"; Digit; Digit; lit " vs eN"; Digit; Digit;
         Opt (Group 1 (lit " (2)")); Eol];
    seq [Bol; lit "SF"; Digit; Digit; lit " vs eForm"; Opt (Chr " ");
         Digit; Digit; Star (Group 1 (seq [Chr ","; Digit; Digit])); Eol] ].

(** The pattern "^(?:eForm|eN) ?(G) vs S?F(\d\d) ?$", in which the first
    group G is "\d\d?(?:,\d\d)*". *)
Definition keep_sheet_regex : regex :=
  seq [Bol; Alt (lit "eForm") (lit "eN"); Opt (Chr " ");
       Group 1 (seq [Digit; Opt Digit; Star (seq [Chr ","; Digit; Digit])]);
       lit " vs "; Opt (Chr "S"); Chr "F"; Group 2 (seq [Digit; Digit]);
       Opt (Chr " "); Eol].

(** The pattern
    "\n(?=\(|(2009|Title III|and|requirements|subcontractor|will)\b)". *)
Definition replace_newlines : regex :=
  Seq (Chr nl)
      (Ahead (Alt (Chr "(")
                  (Seq (Group 1 (words ["2009"; "Title III"; "and";
                                        "requirements"; "subcontractor"; "will"]))
                       WordB))).

(** *** Sheet names *)

Inductive classification : Type :=
| Ignore                                   (* [continue] *)
| Raise (e : exn)
| Accept (eforms_notice_number sf_notice_number : string).

Definition ignored (sheet : string) : bool :=
  existsb (String.eqb sheet) ignore_sheets
  || existsb (fun regex => notna (search regex sheet)) ignore_sheet_regex.

Definition unknown_sheet (sheet : string) : string :=
  "The sheet name " ++ repr sheet ++ " doesn't match a known pattern.".

Definition classify (sheet : string) : classification :=
  if ignored sheet then Ignore
  else
    match search keep_sheet_regex sheet with
    | None => Raise (ClickException (unknown_sheet sheet))
    | Some m =>
        match group 1 m, group 2 m with
        | Some eforms_notice_number, Some g2 =>
            Accept eforms_notice_number (lstrip "0" g2)
        | _, _ => Raise AttributeError
        end
    end.

(** The value of the "eformsNotice" column. *)
Definition eformsNotice_of (eforms_notice_number : string) : list string :=
  map (lstrip "0") (split "," eforms_notice_number).

(** *** The frame of a sheet *)

(** The row once the notice columns are added, "Name" is trimmed and the
    missing values are filled, in a frame whose "Name" column has the
    [.str] accessor: it is [normalize] that raises where it has none. *)
Definition normal_row (eforms_notice_number sf_notice_number : string)
           (r : sheet_row) : row string (list string) :=
  {| Indent_level := fillna (c_Indent_level r);
     ID := fillna (c_ID r);
     Name := fillna (option_map strip_ws (c_Name r));
     Element := fillna (c_Element r);
     Level := fillna (c_Level r);
     eformsNotice := eformsNotice_of eforms_notice_number;
     sfNotice := sf_notice_number;
     rest := map fillna (c_rest r) |}.

(** Rows without a "Level" are removed, then the first column has to be
    empty and is dropped. *)
Definition drop_Empty (table : list sheet_row) : outcome (list sheet_row) :=
  let df := filter (fun r => notna (c_Level r)) table in
  if forallb (fun r => isna (c_Empty r)) df
  then Returned df
  else Raised (ClickException "The first column was expected to be empty.").

(** The frame before the loop over its rows.  [df['Name'].str] raises an
    [AttributeError] where the "Name" column of the sheet, as it was
    read, is of dtype float64. *)
Definition normalize (eforms_notice_number sf_notice_number : string)
           (table : list sheet_row) : outcome (list (row string (list string))) :=
  match drop_Empty table with
  | Raised e => Raised e
  | Returned df =>
      if float64 (map c_Name table) then Raised AttributeError
      else Returned (map (normal_row eforms_notice_number sf_notice_number) df)
  end.

(** *** The loop over the rows *)

Definition location (eforms_notice_number sf_notice_number id : string) : string :=
  "eForm" ++ eforms_notice_number ++ " - SF" ++ sf_notice_number ++ ": " ++ id ++ ": ".

(** [click.style(text, blink=True)] *)
Definition style_blink (t : string) : string :=
  chr esc ++ "[5m" ++ t ++ chr esc ++ "[0m".

(** Spurious newlines in an "Element" value are removed, and shown. *)
Definition remove_spurious_newlines (location element : string)
  : list echo * string :=
  let element := replace (NL ++ NL) NL element in
  match search replace_newlines element with
  | Some _ =>
      let highlight := sub replace_newlines style_blink element in
      let highlight := replace NL "\n" highlight in
      ([Echo None (location ++ "removed \n: " ++ highlight)],
       sub replace_newlines (fun _ => " ") element)
  | None => ([], element)
  end.

Definition BT_18_Level : string := "I.3.4.1.1" ++ NL ++ "I.3.4.1.2".

Definition BT_750_Level : string :=
  "III.2.1.1.1" ++ NL ++ "III.2.2.2" ++ NL ++ "III.2.2.3" ++ NL
  ++ "III.2.3.1.1" ++ NL ++ "III.2.3.1.2".

Definition BT_750_Element : string :=
  "Information and formalities necessary for evaluating if the requirements are met:" ++ NL
  ++ "Information and formalities necessary for evaluating if the requirements are met:" ++ NL
  ++ "Minimum level(s) of standards possibly required: (if applicable)" ++ NL
  ++ "Information and formalities necessary for evaluating if the requirements are met:" ++ NL
  ++ "Minimum level(s) of standards possibly required: (if applicable)" ++ NL.

(** The hardcoded corrections: the new "Level" and "Element". *)
Definition hardcode_corrections (eforms_notice_number sf_notice_number id
                                 level element : string) : string * string :=
  if String.eqb eforms_notice_number "15"
     && String.eqb sf_notice_number "7"
     && String.eqb id "BT-18"
     && String.eqb level "I.3.4.1.1"
     && (List.length (split nl element) =? 2)
  then (BT_18_Level, element)
  else if String.eqb eforms_notice_number "18"
          && String.eqb sf_notice_number "17"
          && String.eqb id "BT-750"
          && String.eqb level BT_750_Level
          && (List.length (split nl element) =? 2)
  then (level, BT_750_Element)
  else (level, element).

(** "Element" repeated as many times as there are "Level". *)
Definition repeat_Element (Level Element : list string) : list string :=
  let length := List.length Level in
  if List.length Element <? length then list_mul Element length else Element.

(** The repetition as the specification words it: the last entry of
    "Element" repeated until there are as many entries as in "Level". *)
Definition repeat_last (Level Element : list string) : list string :=
  Element ++ repeat (last Element "") (List.length Level - List.length Element).

(** The loop that deletes the entries with a B... "Level".  Both list
    iterators of [zip] and the counter of [enumerate] stand at [i]; the
    lists are those being iterated over, so a deletion moves the entries
    after [i] one place down.  [fuel] bounds the number of iterations. *)
Fixpoint remove_B_loop (fuel i : nat) (Level Element : list string)
  : list string * list string :=
  match fuel with
  | 0 => (Level, Element)
  | S fuel' =>
      match nth_error Level i, nth_error Element i with
      | Some level, Some _ =>
          if startswith "B" level
          then remove_B_loop fuel' (S i) (del i Level) (del i Element)
          else remove_B_loop fuel' (S i) Level Element
      | _, _ => (Level, Element)
      end
  end.

Definition remove_B (Level Element : list string) : list string * list string :=
  remove_B_loop (List.length Level) 0 Level Element.

(** The loop's effect on the entries from the current index on: after a
    deletion the next entry takes the place of the deleted one, and the
    iterators step over it. *)
Fixpoint remove_B_from (Level Element : list string) {struct Level}
  : list string * list string :=
  match Level, Element with
  | level :: Level', _ :: Element' =>
      if startswith "B" level then
        match Level', Element' with
        | level2 :: Level'', element2 :: Element'' =>
            let (l, e) := remove_B_from Level'' Element'' in
            (level2 :: l, element2 :: e)
        | _, _ => (Level', Element')
        end
      else
        match Element with
        | element :: _ =>
            let (l, e) := remove_B_from Level' Element' in
            (level :: l, element :: e)
        | [] => (Level, Element)
        end
  | _, _ => (Level, Element)
  end.

(** No two entries in a row start with "B". *)
Fixpoint no_adjacent_B (Level : list string) : bool :=
  match Level with
  | a :: (b :: _) as Level' =>
      negb (startswith "B" a && startswith "B" b) && no_adjacent_B Level'
  | _ => true
  end.

(** The pairs of [zip(Level, Element)] whose "Level" does not start with
    "B". *)
Definition kept_pairs (Level Element : list string) : list (string * string) :=
  filter (fun p => negb (startswith "B" (fst p))) (combine Level Element).

(** The first part of the body of the loop over [df.iterrows()], for the
    row [r]: what is written to the terminal, and the "Level" and
    "Element" once the newlines are cleaned up and the corrections
    made. *)
Definition corrected (N : Type) (eforms_notice_number sf_notice_number : string)
           (r : row string N) : list echo * (string * string) :=
  let location := location eforms_notice_number sf_notice_number (ID r) in
  let (out, element) := remove_spurious_newlines location (Element r) in
  (out, hardcode_corrections eforms_notice_number sf_notice_number (ID r)
                             (Level r) element).

(** The second part: a "Level" without newline ends the iteration;
    otherwise both values are split, "Element" is repeated, and the
    B... entries are deleted. *)
Definition split_cells (location level element : string)
  : list echo * (cell * cell) :=
  if negb (contains nl level) then
    (if contains nl element
     then [Echo (Some yellow) (location ++ "unexpected \n: " ++ repr element)]
     else [],
     (Scalar level, Scalar element))
  else
    let Level := split nl (strip nl level) in
    let Element := split nl (strip nl element) in
    let Element := repeat_Element Level Element in
    let out :=
      if negb (List.length Level =? List.length Element)
      then [Echo (Some red) (location ++ "size differs: " ++ str_list Level
                             ++ " " ++ str_list Element)]
      else [] in
    let (Level, Element) := remove_B Level Element in
    (out, (Listy Level, Listy Element)).

(** The body for the row [r]: the lines written and the row as the loop
    leaves it.  The frame holds strings and lists only, and what the
    body assigns to [row] reaches the frame. *)
Definition process_row (N : Type) (eforms_notice_number sf_notice_number : string)
           (r : row string N) : list echo * row cell N :=
  let '(out1, (level, element)) :=
    corrected eforms_notice_number sf_notice_number r in
  let '(out2, (Level, Element)) :=
    split_cells (location eforms_notice_number sf_notice_number (ID r))
                level element in
  (out1 ++ out2, set_Level_Element r Level Element).

(** The whole loop: the lines written, in order, and the frame after. *)
Definition iterrows (N : Type) (eforms_notice_number sf_notice_number : string)
           (df : list (row string N)) : list echo * list (row cell N) :=
  let done := map (process_row eforms_notice_number sf_notice_number) df in
  (concat (map fst done), map snd done).

(** *** One sheet, and all of them *)

Definition corpus_row : Type := row (option string) (option string).

(** The frame appended to [dfs] for a sheet, or [None] for a sheet that
    is passed over. *)
Definition process_sheet (sheet : string) (table : list sheet_row)
  : list echo * outcome (option (list corpus_row)) :=
  match classify sheet with
  | Ignore => ([], Returned None)
  | Raise e => ([], Raised e)
  | Accept eforms_notice_number sf_notice_number =>
      match normalize eforms_notice_number sf_notice_number table with
      | Raised e => ([], Raised e)
      | Returned df =>
          let (out, df) := iterrows eforms_notice_number sf_notice_number df in
          match explode_Level_Element df with
          | Raised (ValueError e) => (out, Raised (ClickException (sheet ++ ": " ++ e)))
          | Raised e => (out, Raised e)
          | Returned df => (out, Returned (Some (explode_eformsNotice df)))
          end
      end
  end.

(** The loop over the sheets of all workbooks, [dfs] being the frames
    collected so far. *)
Fixpoint sheets_loop (sheets : list (string * list sheet_row))
         (dfs : list (list corpus_row))
  : list echo * outcome (list (list corpus_row)) :=
  match sheets with
  | [] => ([], Returned dfs)
  | (sheet, table) :: sheets' =>
      match process_sheet sheet table with
      | (out, Raised e) => (out, Raised e)
      | (out, Returned None) =>
          let (out', res) := sheets_loop sheets' dfs in (out ++ out', res)
      | (out, Returned (Some df)) =>
          let (out', res) := sheets_loop sheets' (dfs ++ [df]) in (out ++ out', res)
      end
  end.

(** The command: the lines written to the terminal, and the table written
    to bt-indices-mapping.csv unless an exception is raised.  A workbook
    is the list of its sheets, in order; [pd.concat] refuses an empty
    list of frames. *)
Definition extract_indices_mapping (files : list (list (string * list sheet_row)))
  : list echo * outcome (list corpus_row) :=
  match sheets_loop (concat files) [] with
  | (out, Raised e) => (out, Raised e)
  | (out, Returned []) => (out, Raised (ValueError "No objects to concatenate"))
  | (out, Returned dfs) => (out, Returned (concat dfs))
  end.

End Manage.

(* ================================================================== *)
(** ** The other commands *)

Module Commands.
Import Py Frame.

(** Exceptions of the other commands; [DuplicateKeys] is the [ValueError]
    of [set_index(verify_integrity=True)]. *)
Inductive error : Type :=
| IndexError
| TypeError
| KeyError
| ZeroDivisionError
| AssertionError (message : string)
| DuplicateKeys.

Inductive result (A : Type) : Type :=
| Failed (e : error)
| Done (a : A).
Arguments Failed {A} e.
Arguments Done {A} a.

(** [str(n)] *)
Definition str_nat (n : nat) : string := NilEmpty.string_of_uint (Nat.to_uint n).

(** *** [find] *)

(** The line written for [sheet]; a workbook is given by its name and the
    names of its sheets, in the order of the archive. *)
Fixpoint find (sheet : string) (files : list (string * list string)) : echo :=
  match files with
  | [] => Echo (Some red) ("Sheet '" ++ sheet ++ "' not found")
  | (name, sheet_names) :: files' =>
      if existsb (String.eqb sheet) sheet_names
      then Echo None ("First occurrence: " ++ name)
      else find sheet files'
  end.

(** *** [annex_rows] and [extract_hierarchy] *)

(** A row of the "Annex" sheet: its "ID" and "Level" cells, and the other
    cells by the name of their column. *)
Record annex_row : Type := AnnexRow {
  a_ID : option string;
  a_Level : option string;
  a_columns : list (string * option string)
}.

(** A row that [annex_rows] yields: one with an "ID". *)
Record term : Type := Term {
  t_ID : string;
  t_Level : option string;
  t_columns : list (string * option string)
}.

Definition annex_rows (df : list annex_row) : list term :=
  flat_map (fun row =>
              match a_ID row with
              | Some id => [Term id (a_Level row) (a_columns row)]
              | None => []
              end) df.

(** The loop of [extract_hierarchy]: [line] is the branch of the tree that
    leads to the last row, a [None] in it the place just appended. *)
Fixpoint hierarchy_loop (rows : list term) (data : list (list (option string)))
         (line : list (option string)) (previous_level : nat)
  : result (list (list (option string))) :=
  match rows with
  | [] => Done data
  | row :: rows' =>
      let identifier := t_ID row in
      match t_Level row with
      | None => Failed TypeError
      | Some level =>
          let current_level := String.length level in
          let line :=
            if previous_level <? current_level then line ++ [None]
            else if current_level <? previous_level then firstn current_level line
            else line in
          match line with
          | [] => Failed IndexError
          | _ =>
              let line := removelast line ++ [Some identifier] in
              hierarchy_loop rows' (data ++ [Some identifier :: removelast line])
                             line current_level
          end
      end
  end.

(** The rows handed to the frame that is written to bt-bg-hierarchy.csv. *)
Definition extract_hierarchy (rows : list term) : result (list (list (option string))) :=
  hierarchy_loop rows [] [] 0.

(** The level of a row, and the identifier of the last row of [rows] at
    the level [j]. *)
Definition level_of (row : term) : nat :=
  match t_Level row with
  | Some level => String.length level
  | None => 0
  end.

Definition last_at (j : nat) (rows : list term) : option string :=
  fold_left (fun found row => if level_of row =? j then Some (t_ID row) else found)
            rows None.

(** Levels that start at one and go down by any number but up by one at
    most. *)
Fixpoint nested (previous_level : nat) (rows : list term) : Prop :=
  match rows with
  | [] => True
  | row :: rows' =>
      (exists level, t_Level row = Some level)
      /\ 1 <= level_of row <= S previous_level
      /\ nested (level_of row) rows'
  end.

(** For each row of [rest], itself and the last rows before it at each of
    the levels above its own, [done] being the rows before [rest]. *)
Fixpoint with_ancestors (done rest : list term) : list (list (option string)) :=
  match rest with
  | [] => []
  | row :: rest' =>
      (Some (t_ID row) :: map (fun j => last_at j done) (List.seq 1 (level_of row - 1)))
        :: with_ancestors (done ++ [row]) rest'
  end.

(** *** [extract_xpath_mapping] *)

Definition text (row : list string) : result (list string) :=
  match map (fun cell => strip_ws (replace NL " " cell)) row with
  | [] => Failed IndexError
  | cell :: cells => Done (replace "[@n listName=" "[@listName=" cell :: cells)
  end.

Definition headers : list string :=
  ["XPATH"; "BT ID"; "BT Name"; "Additional information"].

Section XPathMapping.

(** The one-character string U+2013 (an n-dash), a character outside those
    of [string]. *)
Variable ndash : string.

(** The loop over the rows after the first. *)
Fixpoint xpath_rows (rows : list (list string)) : result (list (list string)) :=
  match rows with
  | [] => Done []
  | row :: rows' =>
      match text row with
      | Failed e => Failed e
      | Done [] => Failed IndexError
      | Done (xpath :: cells) =>
          if negb (startswith "/" xpath) then xpath_rows rows'
          else
            match cells with
            | [] => Failed IndexError
            | cell1 :: cells' =>
                let cells := if String.eqb cell1 ndash then "" :: cells' else cells in
                match xpath_rows rows' with
                | Failed e => Failed e
                | Done data => Done ((xpath :: cells) :: data)
                end
            end
      end
  end.

(** The headings and the rows of the frame written to
    bt-xpath-mapping.csv, the document being the list of its tables, a
    table the list of its rows and a row the list of the texts of its
    cells. *)
Definition extract_xpath_mapping (docx : list (list (list string)))
  : result (list string * list (list string)) :=
  match docx with
  | [table] =>
      match table with
      | [] => Failed IndexError
      | row :: rows =>
          match text row with
          | Failed e => Failed e
          | Done columns =>
              if list_eq_dec string_dec columns headers
              then match xpath_rows rows with
                   | Failed e => Failed e
                   | Done data => Done (columns, data)
                   end
              else Failed (AssertionError ("unexpected headers, got " ++ str_list columns))
          end
      end
  | _ => Failed (AssertionError ("unexpected table, found " ++ str_nat (List.length docx)))
  end.

End XPathMapping.

(** *** [prepopulate]: the rows with the same "BT ID" combined *)

(** A row of bt-xpath-mapping.csv; [X] is what its "XPATH" cell holds. *)
Record xpath_row (X : Type) : Type := XpathRow {
  XPATH : X;
  BT_ID : option string;
  BT_Name : option string;
  Additional_information : option string
}.

Definition set_XPATH (X Y : Type) (row : xpath_row X) (xpath : Y) : xpath_row Y :=
  XpathRow xpath (BT_ID row) (BT_Name row) (Additional_information row).

(** [a != b] on cells: a missing value, and the [None] of the first
    [current_row], differ from everything. *)
Definition cell_ne (a b : option string) : bool :=
  match a, b with
  | Some x, Some y => negb (String.eqb x y)
  | _, _ => true
  end.

(** [sorted(l)] on strings. *)
Fixpoint insert_sorted (x : string) (l : list string) : list string :=
  match l with
  | [] => [x]
  | y :: l' => if String.leb x y then x :: l else y :: insert_sorted x l'
  end.

Definition sorted (l : list string) : list string :=
  fold_right insert_sorted [] l.

Definition add (data : list (xpath_row string)) (current_row : xpath_row (list string))
  : list (xpath_row string) :=
  data ++ [set_XPATH current_row (String.concat ";" (sorted (XPATH current_row)))].

Fixpoint combine_loop (rows : list (xpath_row string)) (data : list (xpath_row string))
         (current_row : xpath_row (list string)) : list (xpath_row string) :=
  match rows with
  | [] => add data current_row
  | row :: rows' =>
      if cell_ne (BT_ID row) (BT_ID current_row) then
        let data :=
          match XPATH current_row with
          | [] => data
          | _ => add data current_row
          end in
        combine_loop rows' data (set_XPATH row [XPATH row])
      else
        combine_loop rows' data
                     (set_XPATH current_row (XPATH current_row ++ [XPATH row]))
  end.

(** [data] after the loop over the rows of the XPath table and the last
    [add]. *)
Definition combine_xpaths (df_xpath : list (xpath_row string)) : list (xpath_row string) :=
  combine_loop df_xpath [] (XpathRow [] None None None).

(** No "BT ID" comes back after another one, as in a sorted column. *)
Fixpoint grouped (ids : list string) : Prop :=
  match ids with
  | [] => True
  | id :: ids' =>
      match ids' with
      | [] => True
      | id' :: _ => id = id' \/ ~ In id ids'
      end /\ grouped ids'
  end.

(** *** [write_guidance_pair]: the "eforms_xpath" column of the JSON file *)

Inductive xcell : Type :=
| XNaN
| XStr (s : string)
| XList (l : list string).

Definition is_list (c : xcell) : bool :=
  match c with
  | XList _ => true
  | _ => false
  end.

Definition json_eforms_xpath (column : list xcell) : list xcell :=
  if existsb is_list column then column
  else map (fun c => match c with
                     | XStr s => XList (split ";" s)
                     | _ => c
                     end) column.


(** *** [update_with_annex] *)

(** A row of eforms-guidance.csv. *)
Record guidance_row : Type := GuidanceRow {
  g_id : option string;
  g_Name : option string;
  g_eformsNotice : option string;
  g_sfNotice : option string;
  g_legal_status : option string;
  g_eforms_xpath : xcell;
  g_BT : option string;
  g_bt_description : option string;
  g_bt_datatype : option string;
  g_sfLevel : option string;
  g_guidance : option string;
  g_status : option string;
  g_comments : option string
}.

Fixpoint has_duplicates (l : list string) : bool :=
  match l with
  | [] => false
  | x :: l' => existsb (String.eqb x) l' || has_duplicates l'
  end.

(** [pd.DataFrame(rows).set_index('ID', verify_integrity=True)]: without
    rows the frame has no "ID" column. *)
Definition set_index (rows : list term) : result (list term) :=
  match rows with
  | [] => Failed KeyError
  | _ => if has_duplicates (map t_ID rows) then Failed DuplicateKeys else Done rows
  end.

Definition columns_of (row : term) : list (string * option string) :=
  ("Level", t_Level row) :: t_columns row.

Fixpoint lookup_column (column : string) (columns : list (string * option string))
  : option (option string) :=
  match columns with
  | [] => None
  | (name, value) :: columns' =>
      if String.eqb name column then Some value else lookup_column column columns'
  end.

(** [df_annex.at[label, column]], for columns with distinct names; a
    missing value is no label and no column. *)
Definition at_ (df_annex : list term) (label column : option string)
  : result (option string) :=
  match label, column with
  | Some l, Some c =>
      match List.find (fun row => String.eqb (t_ID row) l) df_annex with
      | None => Failed KeyError
      | Some row =>
          match lookup_column c (columns_of row) with
          | None => Failed KeyError
          | Some value => Done value
          end
      end
  | _, _ => Failed KeyError
  end.

(** "CM" and "EM" count as "M". *)
Definition legal_status_of (status : option string) : option string :=
  match status with
  | Some s => if String.eqb s "CM" || String.eqb s "EM" then Some "M" else status
  | None => None
  end.

Definition with_annex (row : guidance_row) (status description datatype : option string)
  : guidance_row :=
  GuidanceRow (g_id row) (g_Name row) (g_eformsNotice row) (g_sfNotice row)
              status (g_eforms_xpath row) (g_BT row) description datatype
              (g_sfLevel row) (g_guidance row) (g_status row) (g_comments row).

(** The loop over the rows of the guidance. *)
Fixpoint annex_loop (df_annex : list term) (df : list guidance_row)
  : result (list guidance_row) :=
  match df with
  | [] => Done []
  | row :: df' =>
      let term := g_BT row in
      match at_ df_annex term (g_eformsNotice row) with
      | Failed e => Failed e
      | Done status =>
          match at_ df_annex term (Some "Description") with
          | Failed e => Failed e
          | Done description =>
              match at_ df_annex term (Some "Data type") with
              | Failed e => Failed e
              | Done datatype =>
                  match annex_loop df_annex df' with
                  | Failed e => Failed e
                  | Done rows =>
                      Done (with_annex row (legal_status_of status) description datatype
                              :: rows)
                  end
              end
          end
      end
  end.

(** The four columns in which the missing values are filled: each
    [fillna] in place reaches the frame. *)
Definition fill_columns (row : guidance_row) : guidance_row :=
  GuidanceRow (g_id row) (g_Name row) (g_eformsNotice row) (g_sfNotice row)
              (Some (fillna (g_legal_status row))) (g_eforms_xpath row) (g_BT row)
              (g_bt_description row) (g_bt_datatype row) (g_sfLevel row)
              (Some (fillna (g_guidance row))) (Some (fillna (g_status row)))
              (Some (fillna (g_comments row))).

(** What the loop and the filling of the missing values make of [row],
    [a] being the row of the annex: the statement of the theorem on
    [update_with_annex]. *)
Definition updated (a : term) (row new : guidance_row) : Prop :=
  exists notice status,
    g_BT row = Some (t_ID a)
    /\ g_eformsNotice row = Some notice
    /\ lookup_column notice (columns_of a) = Some status
    /\ g_legal_status new = Some (fillna (legal_status_of status))
    /\ lookup_column "Description" (columns_of a) = Some (g_bt_description new)
    /\ lookup_column "Data type" (columns_of a) = Some (g_bt_datatype new)
    /\ g_guidance new = Some (fillna (g_guidance row))
    /\ g_status new = Some (fillna (g_status row))
    /\ g_comments new = Some (fillna (g_comments row))
    /\ (g_id new, g_Name new, g_eformsNotice new, g_sfNotice new,
        g_eforms_xpath new, g_BT new, g_sfLevel new)
       = (g_id row, g_Name row, g_eformsNotice row, g_sfNotice row,
          g_eforms_xpath row, g_BT row, g_sfLevel row).

(** The frame handed to [write_guidance_pair], from the rows of the
    "Annex" sheet and those of eforms-guidance.csv. *)
Definition update_with_annex (annex : list annex_row) (df : list guidance_row)
  : result (list guidance_row) :=
  match set_index (annex_rows annex) with
  | Failed e => Failed e
  | Done df_annex =>
      match annex_loop df_annex df with
      | Failed e => Failed e
      | Done df => Done (map fill_columns df)
      end
  end.

(** *** [statistics] *)

(** A row of eforms-guidance.csv as [statistics] reads it, without missing
    values. *)
Record stat_row : Type := StatRow {
  s_BT : string;
  s_status : string;
  s_guidance : string;
  s_legal_status : string
}.

(** [df.drop_duplicates(subset='BT')]: the first row of each "BT". *)
Fixpoint drop_duplicates_BT (seen : list string) (df : list stat_row) : list stat_row :=
  match df with
  | [] => []
  | row :: df' =>
      if existsb (String.eqb (s_BT row)) seen then drop_duplicates_BT seen df'
      else row :: drop_duplicates_BT (s_BT row :: seen) df'
  end.

Definition is_done (row : stat_row) : bool := startswith "done" (s_status row).
Definition is_issue (row : stat_row) : bool := startswith "issue" (s_status row).
Definition is_imported (row : stat_row) : bool :=
  String.eqb (s_status row) "imported from standard forms".
Definition no_guidance (row : stat_row) : bool := String.eqb (s_guidance row) "".
Definition mandatory (row : stat_row) : bool := String.eqb (s_legal_status row) "M".
Definition optional (row : stat_row) : bool := String.eqb (s_legal_status row) "O".

Definition shape0 (A : Type) (p : A -> bool) (df : list A) : nat :=
  List.length (filter p df).

Record figures : Type := Figures {
  done_terms : nat; total_terms : nat;
  total : nat; imported : nat; done : nat; ready : nat;
  no_issue_no_guidance : nat;
  issue : nat; issue_no_guidance : nat;
  total_mandatory : nat; total_optional : nat;
  done_mandatory : nat; done_optional : nat;
  issue_mandatory : nat; issue_optional : nat
}.

Definition figures_of (df : list stat_row) : figures :=
  let df_terms := drop_duplicates_BT [] df in
  let df_issue := filter is_issue df in
  let df_mandatory := filter mandatory df in
  let df_optional := filter optional df in
  let imported := shape0 is_imported df in
  let done := shape0 is_done df in
  {| done_terms := shape0 is_done df_terms;
     total_terms := List.length df_terms;
     total := List.length df;
     imported := imported;
     done := done;
     ready := imported + done;
     no_issue_no_guidance :=
       shape0 (fun row => String.eqb (s_status row) "" && no_guidance row) df;
     issue := List.length df_issue;
     issue_no_guidance := shape0 no_guidance df_issue;
     total_mandatory := List.length df_mandatory;
     total_optional := List.length df_optional;
     done_mandatory := shape0 is_done df_mandatory;
     done_optional := shape0 is_done df_optional;
     issue_mandatory := shape0 is_issue df_mandatory;
     issue_optional := shape0 is_issue df_optional |}.

(** The quotients formatted in the message, in its order. *)
Definition quotients (f : figures) : list (nat * nat) :=
  [ (done_terms f, total_terms f);
    (ready f, total f);
    (imported f, total f);
    (done f, total f);
    (done_mandatory f, total_mandatory f);
    (issue_mandatory f, total_mandatory f);
    (done_optional f, total_optional f);
    (issue_optional f, total_optional f);
    (issue f, total f);
    (no_issue_no_guidance f, total f) ].

Section Statistics.

(** [percent n d] is the text of [n / d] under the format ".1%", for a
    [d] that is not zero: the quotient is a float. *)
Variable percent : nat -> nat -> string.

Fixpoint percentages (qs : list (nat * nat)) : result (list string) :=
  match qs with
  | [] => Done []
  | (n, d) :: qs' =>
      if d =? 0 then Failed ZeroDivisionError
      else match percentages qs' with
           | Failed e => Failed e
           | Done ps => Done (percent n d :: ps)
           end
  end.

Definition message (f : figures) (ps : list string) : string :=
  let p := fun i => nth i ps "" in
  "- BTs ready for review: " ++ str_nat (done_terms f) ++ "/" ++ str_nat (total_terms f)
    ++ " (" ++ p 0 ++ ")" ++ NL
  ++ "- Rows ready for review: " ++ str_nat (ready f) ++ "/" ++ str_nat (total f)
    ++ " (" ++ p 1 ++ ")" ++ NL
  ++ "    - Imported from 2015 guidance: " ++ str_nat (imported f)
    ++ " (" ++ p 2 ++ ")" ++ NL
  ++ "    - Added or edited after import: " ++ str_nat (done f)
    ++ " (" ++ p 3 ++ ")" ++ NL
  ++ "    - Per legal status:" ++ NL
  ++ "        - Mandatory: " ++ str_nat (done_mandatory f) ++ " (" ++ p 4
    ++ " of all M), " ++ str_nat (issue_mandatory f) ++ " with open issues (" ++ p 5
    ++ " of all M)" ++ NL
  ++ "        - Optional: " ++ str_nat (done_optional f) ++ " (" ++ p 6
    ++ " of all O), " ++ str_nat (issue_optional f) ++ " with open issues (" ++ p 7
    ++ " of all O)" ++ NL
  ++ "- Rows with [open issues](https://github.com/open-contracting/european-union-support/labels/eforms): "
    ++ str_nat (issue f) ++ " (" ++ p 8 ++ "), " ++ str_nat (issue_no_guidance f)
    ++ " without guidance" ++ NL
  ++ "- Rows without issues and without guidance: " ++ str_nat (no_issue_no_guidance f)
    ++ " (" ++ p 9 ++ ")" ++ NL.

(** The text written, or the exception of a division by zero. *)
Definition statistics (df : list stat_row) : result echo :=
  let f := figures_of df in
  match percentages (quotients f) with
  | Failed e => Failed e
  | Done ps => Done (Echo None (message f ps))
  end.

End Statistics.

End Commands.

(* ================================================================== *)
(** ** Notions used to state what the commands keep *)

Module Shape.

(** [l1] is [l2] with some of its entries left out. *)
Inductive sublist (A : Type) : list A -> list A -> Prop :=
| sublist_nil : forall l, sublist [] l
| sublist_keep : forall a l1 l2, sublist l1 l2 -> sublist (a :: l1) (a :: l2)
| sublist_skip : forall a l1 l2, sublist l1 l2 -> sublist l1 (a :: l2).

(** A text without its newlines and spaces. *)
Fixpoint unspaced (s : string) : string :=
  match s with
  | "" => ""
  | String a t =>
      if Ascii.eqb a Py.nl || Ascii.eqb a " " then unspaced t
      else String a (unspaced t)
  end.

(** What a sheet writes to the terminal, and the rows it adds to the
    table. *)
Definition lines_of (st : string * list Frame.sheet_row) : list Frame.echo :=
  fst (Manage.process_sheet (fst st) (snd st)).

Definition rows_of (st : string * list Frame.sheet_row) : list Manage.corpus_row :=
  match snd (Manage.process_sheet (fst st) (snd st)) with
  | Frame.Returned (Some df) => df
  | _ => []
  end.

End Shape.

(* ================================================================== *)
(** ** Facts about the string primitives *)

Section PyFacts.
Import Py.

Lemma contains_app (c : ascii) (s t : string) :
  contains c (s ++ t) = contains c s || contains c t.
Proof.
  induction s as [|a s IH]; simpl; [reflexivity|].
  rewrite IH. now rewrite orb_assoc.
Qed.

Lemma split_nonempty (c : ascii) (s : string) : split c s <> [].
Proof.
  destruct s as [|a t]; simpl; [discriminate|].
  destruct (Ascii.eqb a c); [discriminate|].
  destruct (split c t); discriminate.
Qed.

Lemma split_length_pos (c : ascii) (s : string) : 1 <= List.length (split c s).
Proof.
  pose proof (split_nonempty c s) as H.
  destruct (split c s); [congruence | simpl; lia].
Qed.

(** A string without the separator is not split. *)
Lemma split_without_sep (c : ascii) (s : string) :
  contains c s = false -> split c s = [s].
Proof.
  induction s as [|a t IH]; simpl; intros H; [reflexivity|].
  apply orb_false_iff in H as [Ha Ht].
  rewrite Ha, (IH Ht). reflexivity.
Qed.

(** Each separator adds one entry. *)
Lemma split_with_sep (c : ascii) (s : string) :
  contains c s = true -> 2 <= List.length (split c s).
Proof.
  induction s as [|a t IH]; simpl; intros H; [discriminate|].
  destruct (Ascii.eqb a c) eqn:Ha.
  - simpl. pose proof (split_length_pos c t). lia.
  - simpl in H. specialize (IH H).
    destruct (split c t); simpl in *; lia.
Qed.

Lemma replace_go_without (old new s : string) (a : ascii) (rest : string) :
  old = String a rest -> contains a s = false ->
  replace_go old new s 0 = s.
Proof.
  intros ->. induction s as [|x t IH]; simpl; intros H; [reflexivity|].
  apply orb_false_iff in H as [Hx Ht].
  rewrite Ascii.eqb_sym, Hx. simpl. now rewrite (IH Ht).
Qed.

(** Nothing is replaced in a string that lacks the first character of
    [old]. *)
Lemma replace_without (a : ascii) (rest new s : string) :
  contains a s = false -> replace (String a rest) new s = s.
Proof.
  intros H. unfold replace. now apply replace_go_without with (a := a) (rest := rest).
Qed.

Lemma lstrip_by_not_first (p : ascii -> bool) (s : string) :
  match lstrip_by p s with
  | "" => True
  | String a _ => p a = false
  end.
Proof.
  induction s as [|a t IH]; simpl; [exact I|].
  destruct (p a) eqn:Hp; [exact IH | exact Hp].
Qed.

(** A number stripped of its zeros does not start with one. *)
Lemma lstrip_zero_startswith (s : string) :
  startswith "0" (lstrip "0" s) = false.
Proof.
  unfold lstrip. pose proof (lstrip_by_not_first (Ascii.eqb "0") s) as H.
  destruct (lstrip_by (Ascii.eqb "0") s) as [|a t]; simpl; [reflexivity|].
  simpl in H. now rewrite H.
Qed.

End PyFacts.

(* ================================================================== *)
(** ** Facts about the matcher *)

Section ReFacts.
Import Py Re.

Lemma keeps_refl (g : captures) : keeps g g.
Proof. intros n H. exact H. Qed.

Lemma keeps_trans (g1 g2 g3 : captures) : keeps g1 g2 -> keeps g2 g3 -> keeps g1 g3.
Proof. intros H12 H23 n H. apply H23, H12, H. Qed.

Lemma keeps_cons (g : captures) (n : nat) (v : string) : keeps g ((n, v) :: g).
Proof. intros i H. simpl. destruct (Nat.eqb n i); [discriminate|exact H]. Qed.

Lemma star_loop_calls (step : option ascii -> string -> captures -> cont -> option result)
      (r : regex) (k : cont) :
  calls r step ->
  forall n p s g m,
    star_loop step k n p s g = Some m ->
    exists p' s' g', k p' s' g' = Some m /\ keeps g g'.
Proof.
  intros Hstep. induction n as [|n IH]; intros p s g m H; cbn [star_loop] in H.
  - exists p, s, g. split; [exact H|apply keeps_refl].
  - destruct (step p s g _) as [m0|] eqn:E.
    + injection H as ->.
      apply Hstep in E as (p1 & s1 & g1 & E1 & K1 & _).
      destruct (String.length s1 <? String.length s); [|discriminate].
      apply IH in E1 as (p2 & s2 & g2 & E2 & K2).
      exists p2, s2, g2. split; [exact E2|]. now apply keeps_trans with g1.
    + exists p, s, g. split; [exact H|apply keeps_refl].
Qed.

Lemma run_calls (r : regex) : calls r (run r).
Proof.
  induction r as [|c| |r1 IH1 r2 IH2|r1 IH1 r2 IH2|r1 IH1|r1 IH1|n r1 IH1| | | |r1 IH1];
    intros p s g k m H; cbn [run must_groups] in *.
  - exists p, s, g. repeat split; [exact H|apply keeps_refl|intros n []].
  - destruct s as [|a t]; [discriminate|].
    destruct (Ascii.eqb a c); [|discriminate].
    exists (Some a), t, g. repeat split; [exact H|apply keeps_refl|intros n []].
  - destruct s as [|a t]; [discriminate|].
    destruct (isdigit a); [|discriminate].
    exists (Some a), t, g. repeat split; [exact H|apply keeps_refl|intros n []].
  - apply IH1 in H as (p1 & s1 & g1 & H1 & K1 & M1).
    apply IH2 in H1 as (p2 & s2 & g2 & H2 & K2 & M2).
    exists p2, s2, g2. split; [exact H2|]. split; [now apply keeps_trans with g1|].
    intros n Hn. apply in_app_or in Hn as [Hn|Hn]; [apply K2, M1, Hn|apply M2, Hn].
  - destruct (run r1 p s g k) as [m1|] eqn:E.
    + injection H as ->. apply IH1 in E as (p1 & s1 & g1 & E1 & K1 & _).
      exists p1, s1, g1. repeat split; [exact E1|exact K1|intros n []].
    + apply IH2 in H as (p1 & s1 & g1 & E1 & K1 & _).
      exists p1, s1, g1. repeat split; [exact E1|exact K1|intros n []].
  - destruct (run r1 p s g k) as [m1|] eqn:E.
    + injection H as ->. apply IH1 in E as (p1 & s1 & g1 & E1 & K1 & _).
      exists p1, s1, g1. repeat split; [exact E1|exact K1|intros n []].
    + exists p, s, g. repeat split; [exact H|apply keeps_refl|intros n []].
  - apply (star_loop_calls k IH1) in H as (p1 & s1 & g1 & E1 & K1).
    exists p1, s1, g1. repeat split; [exact E1|exact K1|intros n []].
  - apply IH1 in H as (p1 & s1 & g1 & H1 & K1 & M1).
    eexists p1, s1, _. split; [exact H1|]. split.
    + apply keeps_trans with g1; [exact K1|apply keeps_cons].
    + intros i [<-|Hi]; simpl; [now rewrite Nat.eqb_refl|].
      destruct (Nat.eqb n i); [discriminate|apply M1, Hi].
  - destruct p; [discriminate|].
    exists None, s, g. repeat split; [exact H|apply keeps_refl|intros n []].
  - destruct (_ || _); [|discriminate].
    exists p, s, g. repeat split; [exact H|apply keeps_refl|intros n []].
  - destruct (xorb _ _); [|discriminate].
    exists p, s, g. repeat split; [exact H|apply keeps_refl|intros n []].
  - destruct (run r1 p s g _) as [[g1 x]|] eqn:E; [|discriminate].
    apply IH1 in E as (p1 & s1 & g2 & E1 & K1 & _). injection E1 as -> _.
    exists p, s, g1. repeat split; [exact H|exact K1|intros n []].
Qed.

(** A continuation that fails everywhere makes the match fail. *)
Lemma run_fails (r : regex) (p : option ascii) (s : string) (g : captures) (k : cont) :
  (forall p' s' g', k p' s' g' = None) -> run r p s g k = None.
Proof.
  intros Hk. destruct (run r p s g k) as [m|] eqn:E; [|reflexivity].
  apply run_calls in E as (p' & s' & g' & E1 & _). now rewrite Hk in E1.
Qed.

Lemma star_loop_ext (step : option ascii -> string -> captures -> cont -> option result)
      (k1 k2 : cont) :
  (forall p s g k k', (forall p' s' g', k p' s' g' = k' p' s' g') ->
                      step p s g k = step p s g k') ->
  (forall p s g, k1 p s g = k2 p s g) ->
  forall n p s g, star_loop step k1 n p s g = star_loop step k2 n p s g.
Proof.
  intros Hstep Hk. induction n as [|n IH]; intros p s g; cbn [star_loop].
  - apply Hk.
  - rewrite Hk.
    rewrite (Hstep p s g _
               (fun p' s' g' =>
                  if String.length s' <? String.length s
                  then star_loop step k2 n p' s' g' else None)); [reflexivity|].
    intros p' s' g'. destruct (_ <? _); [apply IH|reflexivity].
Qed.

(** The match depends on the results of the continuation only. *)
Lemma run_ext (r : regex) :
  forall p s g k k',
    (forall p' s' g', k p' s' g' = k' p' s' g') ->
    run r p s g k = run r p s g k'.
Proof.
  induction r as [|c| |r1 IH1 r2 IH2|r1 IH1 r2 IH2|r1 IH1|r1 IH1|n r1 IH1| | | |r1 IH1];
    intros p s g k k' Hk; cbn [run].
  - apply Hk.
  - destruct s as [|a t]; [reflexivity|]. now rewrite Hk.
  - destruct s as [|a t]; [reflexivity|]. now rewrite Hk.
  - apply IH1. intros p' s' g'. now apply IH2.
  - now rewrite (IH1 p s g k k' Hk), (IH2 p s g k k' Hk).
  - now rewrite (IH1 p s g k k' Hk), Hk.
  - apply star_loop_ext; assumption.
  - apply IH1. intros p' s' g'. apply Hk.
  - now rewrite Hk.
  - now rewrite Hk.
  - now rewrite Hk.
  - destruct (run r1 p s g _) as [[g1 x]|]; [apply Hk|reflexivity].
Qed.

(** The bound on the iterations of [r*] never stops one that could go on:
    any bound that is at least the number of characters left gives the
    same match. *)
Lemma star_loop_enough (r : regex) (k : cont) :
  forall n m p s g,
    String.length s <= n -> String.length s <= m ->
    star_loop (run r) k n p s g = star_loop (run r) k m p s g.
Proof.
  assert (Z : forall m p s g,
             String.length s = 0 -> star_loop (run r) k m p s g = k p s g).
  { intros [|m] p s g Hs; cbn [star_loop]; [reflexivity|].
    rewrite run_fails; [reflexivity|].
    intros p' s' g'. rewrite Hs. reflexivity. }
  induction n as [|n IH]; intros m p s g Hn Hm.
  - rewrite (Z m) by lia. reflexivity.
  - destruct m as [|m]; [now rewrite (Z (S n)) by lia|].
    cbn [star_loop].
    rewrite (run_ext r p s g _
               (fun p' s' g' =>
                  if String.length s' <? String.length s
                  then star_loop (run r) k m p' s' g' else None)); [reflexivity|].
    intros p' s' g'.
    destruct (Nat.ltb_spec (String.length s') (String.length s)); [|reflexivity].
    apply IH; lia.
Qed.

Lemma match_at_groups (r : regex) (p : option ascii) (s : string) (m : result) :
  match_at r p s = Some m ->
  forall n, In n (must_groups r) -> group n m <> None.
Proof.
  unfold match_at, group. intros H.
  apply run_calls in H as (p' & s' & g' & [= <-] & _ & M). exact M.
Qed.

(** In a match found by [search] every group that takes part in all
    matches has a text. *)
Lemma search_groups (r : regex) (s : string) (m : result) :
  search r s = Some m ->
  forall n, In n (must_groups r) -> group n m <> None.
Proof.
  unfold search. generalize (@None ascii).
  induction s as [|a t IH]; intros p H; cbn [search_from] in H.
  - destruct (match_at r p "") eqn:E; [|discriminate].
    injection H as ->. eapply match_at_groups; exact E.
  - destruct (match_at r p (String a t)) eqn:E.
    + injection H as ->. eapply match_at_groups; exact E.
    + eapply IH; exact H.
Qed.

End ReFacts.

(* ================================================================== *)
(** ** The clean-up of "Element" and the hardcoded corrections *)

Section Cleanup.
Import Py Re Frame Manage.

Lemma match_replace_newlines_without (p : option ascii) (s : string) :
  first_char s <> Some nl -> match_at replace_newlines p s = None.
Proof.
  destruct s as [|a t]; intros H; [reflexivity|].
  unfold match_at, replace_newlines. simpl.
  destruct (Ascii.eqb_spec a nl) as [->|_]; [now elim H | reflexivity].
Qed.

(** The pattern has no match in a text without a newline. *)
Lemma search_replace_newlines_without (s : string) :
  contains nl s = false -> search replace_newlines s = None.
Proof.
  unfold search. generalize (@None ascii).
  induction s as [|a t IH]; intros p H.
  - reflexivity.
  - simpl in H. apply orb_false_iff in H as [Ha Ht].
    cbn [search_from]. rewrite match_replace_newlines_without.
    + now apply IH.
    + simpl. intros [= ->]. discriminate.
Qed.

(** An "Element" without a newline is left as it is, and nothing is
    written. *)
Lemma remove_spurious_newlines_without (loc element : string) :
  contains nl element = false ->
  remove_spurious_newlines loc element = ([], element).
Proof.
  intros H. unfold remove_spurious_newlines.
  assert (E : replace (NL ++ NL) NL element = element)
    by (apply replace_without; exact H).
  rewrite E, (search_replace_newlines_without _ H). reflexivity.
Qed.


(** A correction is made only where the resulting "Level" has a
    newline. *)
Lemma hardcode_corrections_single (g1 sf id level element : string) :
  contains nl (fst (hardcode_corrections g1 sf id level element)) = false ->
  hardcode_corrections g1 sf id level element = (level, element).
Proof.
  unfold hardcode_corrections.
  destruct (_ && _ && _ && _ && (_ =? 2)); [discriminate|].
  destruct (_ && _ && _ && String.eqb level BT_750_Level && _) eqn:C;
    [|reflexivity].
  repeat (apply andb_true_iff in C as [C ?]).
  match goal with H : String.eqb level _ = true |- _ =>
    apply String.eqb_eq in H; subst level end.
  discriminate.
Qed.

Lemma hardcode_corrections_unsplit (g1 sf id level element : string) :
  contains nl level = false -> contains nl element = false ->
  hardcode_corrections g1 sf id level element = (level, element).
Proof.
  intros Hl He. unfold hardcode_corrections.
  rewrite (split_without_sep _ _ He). simpl.
  now rewrite !andb_false_r.
Qed.

End Cleanup.

(* ================================================================== *)
(** ** The loop that deletes the B... entries *)

Section RemoveB.
Import Py Re Frame Manage.

Lemma del_middle (A : Type) (n : nat) (pre suf : list A) (x : A) :
  List.length pre = n -> del n (pre ++ x :: suf) = pre ++ suf.
Proof.
  intros <-. unfold del. induction pre as [|a pre IH]; simpl; [reflexivity|].
  simpl in IH. now rewrite IH.
Qed.

Lemma nth_error_middle (A : Type) (n : nat) (pre suf : list A) :
  List.length pre = n -> nth_error (pre ++ suf) n = hd_error suf.
Proof.
  intros <-. rewrite nth_error_app2 by lia. rewrite Nat.sub_diag. now destruct suf.
Qed.

(** With the entries before the index set apart, the loop leaves them
    alone and acts on the others as [remove_B_from] does, provided the
    fuel covers the entries of "Level" still to be visited. *)
Lemma remove_B_loop_from (fuel : nat) :
  forall pre pre' suf suf' : list string,
    List.length pre = List.length pre' ->
    List.length suf <= fuel ->
    remove_B_loop fuel (List.length pre) (pre ++ suf) (pre' ++ suf')
    = (pre ++ fst (remove_B_from suf suf'), pre' ++ snd (remove_B_from suf suf')).
Proof.
  induction fuel as [|fuel IH]; intros pre pre' suf suf' Hpre Hfuel.
  - destruct suf; [|simpl in Hfuel; lia]. reflexivity.
  - cbn [remove_B_loop].
    rewrite (nth_error_middle pre suf eq_refl).
    rewrite (nth_error_middle pre' suf' (eq_sym Hpre)).
    destruct suf as [|level suf]; [reflexivity|].
    destruct suf' as [|element suf']; [reflexivity|].
    cbn [hd_error remove_B_from]. simpl in Hfuel.
    destruct (startswith "B" level) eqn:HB.
    + rewrite (del_middle pre suf level eq_refl).
      rewrite (del_middle pre' suf' element (eq_sym Hpre)).
      destruct suf as [|level2 suf].
      { cbn [fst snd]. rewrite app_nil_r.
        destruct fuel; [reflexivity|]. cbn [remove_B_loop].
        replace (nth_error pre (S (List.length pre))) with (@None string)
          by (symmetry; apply nth_error_None; lia).
        reflexivity. }
      destruct suf' as [|element2 suf'].
      { cbn [fst snd]. rewrite app_nil_r.
        destruct fuel; [reflexivity|]. cbn [remove_B_loop].
        replace (nth_error pre' (S (List.length pre))) with (@None string)
          by (symmetry; apply nth_error_None; lia).
        now destruct (nth_error _ _). }
      replace (pre ++ level2 :: suf) with ((pre ++ [level2]) ++ suf)
        by (now rewrite <- app_assoc).
      replace (pre' ++ element2 :: suf') with ((pre' ++ [element2]) ++ suf')
        by (now rewrite <- app_assoc).
      replace (S (List.length pre)) with (List.length (pre ++ [level2]))
        by (rewrite length_app; simpl; lia).
      rewrite IH.
      * destruct (remove_B_from suf suf') as [l e]. simpl.
        now rewrite <- !app_assoc.
      * rewrite !length_app. simpl. lia.
      * simpl in Hfuel. lia.
    + replace (pre ++ level :: suf) with ((pre ++ [level]) ++ suf)
        by (now rewrite <- app_assoc).
      replace (pre' ++ element :: suf') with ((pre' ++ [element]) ++ suf')
        by (now rewrite <- app_assoc).
      replace (S (List.length pre)) with (List.length (pre ++ [level]))
        by (rewrite length_app; simpl; lia).
      rewrite IH.
      * destruct (remove_B_from suf suf') as [l e]. simpl.
        now rewrite <- !app_assoc.
      * rewrite !length_app. simpl. lia.
      * lia.
Qed.

Lemma remove_B_loop_whole (fuel : nat) (Level Element : list string) :
  List.length Level <= fuel ->
  remove_B_loop fuel 0 Level Element = remove_B_from Level Element.
Proof.
  intros H.
  pose proof (remove_B_loop_from (fuel := fuel) [] [] Level Element eq_refl H) as E.
  simpl in E. rewrite E. now destruct (remove_B_from Level Element).
Qed.

(** The fuel given to the loop is enough, and more would change nothing. *)
Lemma remove_B_loop_enough (fuel : nat) (Level Element : list string) :
  List.length Level <= fuel ->
  remove_B_loop fuel 0 Level Element = remove_B Level Element.
Proof.
  intros H. unfold remove_B.
  now rewrite !remove_B_loop_whole by (exact H || apply le_n).
Qed.

Lemma remove_B_is_from (Level Element : list string) :
  remove_B Level Element = remove_B_from Level Element.
Proof. apply remove_B_loop_whole, le_n. Qed.

End RemoveB.

Section RemoveBFacts.
Import Py Re Frame Manage.

Lemma list_pair_ind (A : Type) (P : list A -> Prop) :
  P [] -> (forall a, P [a]) ->
  (forall a b l, P l -> P (b :: l) -> P (a :: b :: l)) ->
  forall l, P l.
Proof.
  intros H0 H1 H2.
  assert (H : forall l, P l /\ forall a, P (a :: l)).
  { induction l as [|b l [IHl IHbl]]; split; auto. }
  intros l. apply H.
Qed.

(** The loop deletes as many entries of "Element" as of "Level". *)
Lemma remove_B_from_length (Level : list string) :
  forall Element,
    List.length (fst (remove_B_from Level Element)) + List.length Element
    = List.length (snd (remove_B_from Level Element)) + List.length Level.
Proof.
  induction Level as [|a|a b l IHl IHbl] using list_pair_ind; intros Element.
  - simpl. lia.
  - destruct Element as [|e E]; [simpl; lia|].
    cbn [remove_B_from]. destruct (startswith "B" a); simpl; [lia|].
    destruct E; simpl; lia.
  - destruct Element as [|e E]; [simpl; lia|].
    remember (b :: l) as bl eqn:Hbl.
    cbn [remove_B_from]. destruct (startswith "B" a).
    + subst bl. destruct E as [|e2 E]; [simpl; lia|].
      specialize (IHl E). destruct (remove_B_from l E). simpl in *. lia.
    + specialize (IHbl E). destruct (remove_B_from bl E). simpl in *. lia.
Qed.

(** Only a "Level" that is a single B... entry is emptied. *)
Lemma remove_B_from_nil (Level Element : list string) :
  fst (remove_B_from Level Element) = [] ->
  Level = [] \/ exists b, Level = [b] /\ startswith "B" b = true.
Proof.
  destruct Level as [|a l]; [now left|]. intros H. right.
  destruct Element as [|e E]; [discriminate|].
  cbn [remove_B_from] in H. destruct (startswith "B" a) eqn:HB.
  - destruct l as [|b l]; [now exists a|].
    destruct E as [|e2 E]; [discriminate|].
    destruct (remove_B_from l E); discriminate.
  - destruct (remove_B_from l E); discriminate.
Qed.

(** Where no two B... entries follow one another, and "Element" is at
    least as long as "Level", the loop keeps exactly the pairs whose
    "Level" does not start with "B", in order, and the entries of
    "Element" beyond the last "Level". *)
Lemma remove_B_from_kept (Level : list string) :
  forall Element,
    no_adjacent_B Level = true ->
    List.length Level <= List.length Element ->
    remove_B_from Level Element
    = (map fst (kept_pairs Level Element),
       map snd (kept_pairs Level Element) ++ skipn (List.length Level) Element).
Proof.
  unfold kept_pairs.
  induction Level as [|a|a b l IHl IHbl] using list_pair_ind;
    intros Element Hadj Hlen.
  - now destruct Element.
  - destruct Element as [|e E]; [simpl in Hlen; lia|].
    cbn [remove_B_from combine filter fst List.length skipn].
    destruct (startswith "B" a); simpl; [reflexivity|now destruct E].
  - destruct Element as [|e E]; [simpl in Hlen; lia|].
    destruct E as [|e2 E]; [simpl in Hlen; lia|].
    cbn [no_adjacent_B] in Hadj. apply andb_true_iff in Hadj as [Hab Hadj].
    specialize (IHbl (e2 :: E) Hadj).
    remember (b :: l) as bl eqn:Hbl.
    cbn [remove_B_from]. destruct (startswith "B" a) eqn:Ha.
    + subst bl. destruct (startswith "B" b) eqn:Hb; [discriminate|].
      assert (Hl : no_adjacent_B l = true).
      { destruct l as [|c l]; [reflexivity|].
        cbn [no_adjacent_B] in Hadj. now apply andb_true_iff in Hadj. }
      rewrite (IHl E Hl) by (simpl in Hlen; lia).
      cbn [combine filter fst]. rewrite Ha, Hb. reflexivity.
    + rewrite IHbl by (subst bl; simpl in Hlen; simpl; lia).
      cbn [combine filter fst]. rewrite Ha. reflexivity.
Qed.

Lemma kept_pairs_fst (Level Element : list string) :
  List.length Level <= List.length Element ->
  map fst (kept_pairs Level Element)
  = filter (fun l => negb (startswith "B" l)) Level.
Proof.
  unfold kept_pairs. revert Element.
  induction Level as [|a l IH]; intros Element H.
  - now destruct Element.
  - destruct Element as [|e E]; simpl in H; [lia|].
    cbn [combine filter fst].
    destruct (startswith "B" a); cbn [negb map fst]; rewrite IH by lia; reflexivity.
Qed.

End RemoveBFacts.

(* ================================================================== *)
(** ** Rows, frames and the run *)

Section Pipeline.
Import Py Re Frame Manage.

Lemma split_cells_unsplit (loc level element : string) :
  contains nl level = false ->
  split_cells loc level element
  = (if contains nl element
     then [Echo (Some yellow) (loc ++ "unexpected \n: " ++ repr element)]
     else [],
     (Scalar level, Scalar element)).
Proof. intros H. unfold split_cells. now rewrite H. Qed.

Lemma explode_row_scalar (N : Type) (r : row cell N) (level element : string) :
  Level r = Scalar level -> Element r = Scalar element ->
  explode_row r = [set_Level_Element r (Some level) (Some element)].
Proof. intros HL HE. unfold explode_row. now rewrite HL, HE. Qed.

(** A frame explodes when its two parts do, into what they give. *)
Lemma explode_Level_Element_app (N : Type) (df1 df2 : list (row cell N)) :
  explode_Level_Element (df1 ++ df2)
  = match explode_Level_Element df1, explode_Level_Element df2 with
    | Returned p1, Returned p2 => Returned (p1 ++ p2)
    | _, _ => Raised (ValueError "columns must have matching element counts")
    end.
Proof.
  unfold explode_Level_Element. rewrite forallb_app, flat_map_app.
  destruct (forallb _ df1), (forallb _ df2); reflexivity.
Qed.

Lemma explode_Level_Element_one (N : Type) (r : row cell N) :
  mylen (Level r) = mylen (Element r) ->
  explode_Level_Element [r] = Returned (explode_row r).
Proof.
  intros H. unfold explode_Level_Element. simpl.
  rewrite H, Nat.eqb_refl, app_nil_r. reflexivity.
Qed.

Lemma iterrows_app (N : Type) (g1 sf : string) (df1 df2 : list (row string N)) :
  snd (iterrows g1 sf (df1 ++ df2))
  = snd (iterrows g1 sf df1) ++ snd (iterrows g1 sf df2).
Proof. unfold iterrows. simpl. now rewrite !map_app. Qed.

Lemma iterrows_one (N : Type) (g1 sf : string) (r : row string N) :
  snd (iterrows g1 sf [r]) = [snd (process_row g1 sf r)].
Proof. reflexivity. Qed.

(** What a row writes is among what its frame writes. *)
Lemma iterrows_echo (N : Type) (g1 sf : string) (df : list (row string N))
      (r : row string N) (e : echo) :
  In r df -> In e (fst (process_row g1 sf r)) -> In e (fst (iterrows g1 sf df)).
Proof.
  intros Hr He. unfold iterrows. simpl. apply in_concat.
  exists (fst (process_row g1 sf r)). split; [|exact He].
  rewrite map_map. apply in_map_iff. now exists r.
Qed.

(** A sheet that raises ends the loop over the sheets with an exception,
    whatever precedes and follows it. *)
Lemma sheets_loop_raises (sheets : list (string * list sheet_row)) :
  forall (sheet : string) (table : list sheet_row) (e : exn) dfs,
    In (sheet, table) sheets ->
    snd (process_sheet sheet table) = Raised e ->
    exists out e', sheets_loop sheets dfs = (out, Raised e').
Proof.
  induction sheets as [|[s t] sheets IH]; intros sheet table e dfs Hin Hr;
    [destruct Hin|].
  cbn [sheets_loop].
  destruct (process_sheet s t) as [out [e0|[df|]]] eqn:Hs.
  - now exists out, e0.
  - destruct Hin as [[= -> ->]|Hin]; [rewrite Hs in Hr; discriminate|].
    destruct (IH sheet table e (dfs ++ [df]) Hin Hr) as (out' & e' & ->).
    now exists (out ++ out'), e'.
  - destruct Hin as [[= -> ->]|Hin]; [rewrite Hs in Hr; discriminate|].
    destruct (IH sheet table e dfs Hin Hr) as (out' & e' & ->).
    now exists (out ++ out'), e'.
Qed.

(** Then no table is written. *)
Lemma run_raises (files : list (list (string * list sheet_row)))
      (sheet : string) (table : list sheet_row) (e : exn) :
  In (sheet, table) (concat files) ->
  snd (process_sheet sheet table) = Raised e ->
  exists out e', extract_indices_mapping files = (out, Raised e').
Proof.
  intros Hin Hr. unfold extract_indices_mapping.
  destruct (@sheets_loop_raises _ _ _ e [] Hin Hr) as (out & e' & ->).
  now exists out, e'.
Qed.

End Pipeline.

(* ================================================================== *)
(** ** Rows without a newline *)

Section Unsplit.
Import Py Re Frame Manage.

(** C4: a row whose "Level" and "Element" have no newline goes through the
    loop unchanged and without a line written, and explodes into exactly
    one row, equal to it in every column; in a frame that explodes, that
    one row stands between the rows of what precedes and of what follows. *)
Theorem unsplit_row_one_placement (N : Type) (g1 sf : string) (r : row string N) :
  contains nl (Level r) = false ->
  contains nl (Element r) = false ->
  process_row g1 sf r
  = ([], set_Level_Element r (Scalar (Level r)) (Scalar (Element r)))
  /\ explode_row (snd (process_row g1 sf r))
     = [set_Level_Element r (Some (Level r)) (Some (Element r))]
  /\ forall before after placements,
       explode_Level_Element (snd (iterrows g1 sf (before ++ r :: after)))
       = Returned placements ->
       exists p1 p2,
         explode_Level_Element (snd (iterrows g1 sf before)) = Returned p1
         /\ explode_Level_Element (snd (iterrows g1 sf after)) = Returned p2
         /\ placements
            = p1 ++ [set_Level_Element r (Some (Level r)) (Some (Element r))] ++ p2.
Proof.
  intros HL HE.
  assert (P : process_row g1 sf r
              = ([], set_Level_Element r (Scalar (Level r)) (Scalar (Element r)))).
  { unfold process_row, corrected.
    rewrite remove_spurious_newlines_without by exact HE.
    rewrite hardcode_corrections_unsplit by assumption.
    rewrite split_cells_unsplit by exact HL. rewrite HE. reflexivity. }
  split; [exact P|]. split; [now rewrite P|].
  intros before after placements H.
  change (r :: after) with ([r] ++ after) in H.
  rewrite !iterrows_app, iterrows_one, P in H. cbn [snd] in H.
  rewrite !explode_Level_Element_app in H.
  destruct (explode_Level_Element (snd (iterrows g1 sf before))) as [|p1];
    [discriminate|].
  rewrite explode_Level_Element_one in H by reflexivity.
  destruct (explode_Level_Element (snd (iterrows g1 sf after))) as [|p2];
    [discriminate|].
  injection H as <-. now exists p1, p2.
Qed.

Lemma unsplit_row_one_placement_witness :
  let r := Row "2" "BT-22" "Internal Identifier" "Title" "II.1.1.1"
               ["15"; "18"] "7" ["M"] in
  contains nl (Level r) = false
  /\ contains nl (Element r) = false
  /\ process_row "15,18" "7" r
     = ([], set_Level_Element r (Scalar (Level r)) (Scalar (Element r))).
Proof.
  intros r. split; [reflexivity|]. split; [reflexivity|].
  apply (@unsplit_row_one_placement (list string) "15,18" "7" r); reflexivity.
Defined.



(** The clean-up comes first: where it joins a line to the one before, its
    plain line precedes the yellow one, which shows the newlines left. *)
Lemma removed_then_unexpected :
  let r := Row "3" "BT-531" "Additional Nature" (lines ["a"; "b"; "and c"])
               "III.2.1.1.1" ["18"] "17" [] in
  map fg (fst (process_row "18" "17" r)) = [None; Some yellow]
  /\ map text (filter (fun e => notna (fg e)) (fst (process_row "18" "17" r)))
     = ["eForm18 - SF17: BT-531: unexpected \n: 'a\nb and c'"]
  /\ Element (snd (process_row "18" "17" r)) = Scalar (lines ["a"; "b and c"]).
Proof. repeat split. Qed.

End Unsplit.

(* ================================================================== *)
(** ** Rows that are split *)

Section Split.
Import Py Re Frame Manage.

Lemma list_mul_length (A : Type) (l : list A) (n : nat) :
  List.length (list_mul l n) = List.length l * n.
Proof.
  unfold list_mul. induction n as [|n IH]; simpl; [lia|].
  rewrite length_app, IH. lia.
Qed.

Lemma list_mul_single (A : Type) (a : A) (n : nat) : list_mul [a] n = repeat a n.
Proof.
  unfold list_mul. induction n as [|n IH]; simpl; [reflexivity|]. now rewrite IH.
Qed.

(** After the repetition a non-empty "Element" is at least as long as
    "Level". *)
Lemma repeat_Element_long (Level Element : list string) :
  Element <> [] ->
  List.length Level <= List.length (repeat_Element Level Element).
Proof.
  intros H. unfold repeat_Element.
  destruct (Nat.ltb_spec (List.length Element) (List.length Level)) as [Hlt|Hge];
    [|exact Hge].
  rewrite list_mul_length. destruct Element; [congruence|]. simpl. nia.
Qed.

Lemma process_row_split (N : Type) (g1 sf : string) (r : row string N) :
  let loc := location g1 sf (ID r) in
  let level := fst (snd (corrected g1 sf r)) in
  let element := snd (snd (corrected g1 sf r)) in
  let levels := split nl (strip nl level) in
  let elements := repeat_Element levels (split nl (strip nl element)) in
  contains nl level = true ->
  process_row g1 sf r
  = (fst (corrected g1 sf r)
     ++ (if negb (List.length levels =? List.length elements)
         then [Echo (Some red) (loc ++ "size differs: " ++ str_list levels
                                ++ " " ++ str_list elements)]
         else []),
     set_Level_Element r (Listy (fst (remove_B levels elements)))
                       (Listy (snd (remove_B levels elements)))).
Proof.
  intros loc level element levels elements H.
  subst loc level element levels elements. unfold process_row.
  destruct (corrected g1 sf r) as [out1 [level element]]. cbn [fst snd] in *.
  unfold split_cells. rewrite H. cbn [negb].
  now destruct (remove_B _ _).
Qed.

(** What the loop leaves of "Element" is longer than what it leaves of
    "Level" whenever it was so before. *)
Lemma remove_B_longer (Level Element : list string) :
  List.length Level < List.length Element ->
  List.length (fst (remove_B Level Element))
  < List.length (snd (remove_B Level Element)).
Proof.
  intros H. rewrite remove_B_is_from.
  pose proof (remove_B_from_length Level Element). lia.
Qed.

Lemma mylen_Listy (l : list string) : l <> [] -> mylen (Listy l) = List.length l.
Proof. destruct l; [congruence|reflexivity]. Qed.

(** A row with lists of different lengths makes [explode] raise. *)
Lemma explode_Level_Element_raises (N : Type) (df : list (row cell N))
      (r : row cell N) :
  In r df -> mylen (Level r) <> mylen (Element r) ->
  explode_Level_Element df
  = Raised (ValueError "columns must have matching element counts").
Proof.
  intros Hin Hne. unfold explode_Level_Element.
  destruct (forallb _ df) eqn:F; [|reflexivity].
  rewrite forallb_forall in F. specialize (F r Hin).
  apply Nat.eqb_eq in F. contradiction.
Qed.

Lemma process_sheet_accept (sheet g1 sf : string) (table : list sheet_row)
      (df : list (row string (list string))) :
  classify sheet = Accept g1 sf ->
  normalize g1 sf table = Returned df ->
  process_sheet sheet table
  = (fst (iterrows g1 sf df),
     match explode_Level_Element (snd (iterrows g1 sf df)) with
     | Raised (ValueError e) => Raised (ClickException (sheet ++ ": " ++ e))
     | Raised e => Raised e
     | Returned p => Returned (Some (explode_eformsNotice p))
     end).
Proof.
  intros Hc Hn. unfold process_sheet. rewrite Hc, Hn.
  destruct (iterrows g1 sf df) as [out df']. cbn [fst snd].
  destruct (explode_Level_Element df') as [[]|]; reflexivity.
Qed.

Lemma iterrows_in (N : Type) (g1 sf : string) (df : list (row string N))
      (r : row string N) :
  In r df -> In (snd (process_row g1 sf r)) (snd (iterrows g1 sf df)).
Proof.
  intros H. unfold iterrows. cbn [snd]. rewrite map_map.
  apply in_map_iff. now exists r.
Qed.

End Split.

Section SplitClaims.
Import Py Re Frame Manage.

(** C1, as the code has it: when the split "Element" is shorter than the
    split "Level", the whole list is repeated as many times as there are
    "Level" entries, which makes the lengths equal exactly when "Element"
    had one entry, then repeated for each "Level"; an "Element" at least as
    long as "Level" is left as it is. *)
Theorem repeat_Element_cases (level element : string) :
  let levels := split nl (strip nl level) in
  let elements := split nl (strip nl element) in
  (List.length levels <= List.length elements ->
   repeat_Element levels elements = elements)
  /\ (List.length elements < List.length levels ->
      repeat_Element levels elements
      = concat (repeat elements (List.length levels))
      /\ List.length (repeat_Element levels elements)
         = List.length elements * List.length levels
      /\ (List.length (repeat_Element levels elements) = List.length levels
          <-> List.length elements = 1))
  /\ (forall e, elements = [e] ->
      repeat_Element levels elements = repeat e (List.length levels)
      /\ repeat_Element levels elements = repeat_last levels elements).
Proof.
  intros levels elements.
  pose proof (split_length_pos nl (strip nl level)) as HL.
  pose proof (split_length_pos nl (strip nl element)) as HE.
  fold levels in HL. fold elements in HE.
  split; [|split].
  - intros H. unfold repeat_Element.
    destruct (Nat.ltb_spec (List.length elements) (List.length levels)); [lia|reflexivity].
  - intros H. unfold repeat_Element.
    destruct (Nat.ltb_spec (List.length elements) (List.length levels)); [|lia].
    split; [reflexivity|]. rewrite list_mul_length. split; [reflexivity|].
    split; nia.
  - intros e He. rewrite He in *. unfold repeat_Element, repeat_last.
    cbn [List.length last] in *.
    destruct (Nat.ltb_spec 1 (List.length levels)) as [Hlt|Hge].
    + rewrite list_mul_single. split; [reflexivity|].
      destruct (List.length levels) as [|n]; [lia|].
      simpl. now rewrite Nat.sub_0_r.
    + assert (E : List.length levels = 1) by lia. rewrite E. now split.
Qed.

Lemma repeat_Element_cases_witness :
  let levels := split nl (strip nl (lines ["I.1"; "I.2"; "I.3"])) in
  let elements := split nl (strip nl "Name") in
  elements = ["Name"]
  /\ repeat_Element levels elements = repeat "Name" (List.length levels)
  /\ repeat_Element levels elements = repeat_last levels elements.
Proof.
  intros levels elements. split; [reflexivity|].
  apply (proj2 (proj2 (repeat_Element_cases
                         (lines ["I.1"; "I.2"; "I.3"]) "Name")) "Name").
  reflexivity.
Defined.

(** C1 as it is stated fails: two "Element" entries for three "Level"
    entries become six, not three with the last one repeated. *)
Lemma repeat_Element_not_last :
  let r := Row "" "BT-1" "" (lines ["x"; "y"]) (lines ["a"; "b"; "c"]) ["1"] "2" [] in
  let levels := split nl (strip nl (Level r)) in
  let elements := split nl (strip nl (Element r)) in
  List.length elements < List.length levels
  /\ repeat_Element levels elements = ["x"; "y"; "x"; "y"; "x"; "y"]
  /\ repeat_last levels elements = ["x"; "y"; "y"]
  /\ List.length (repeat_Element levels elements) <> List.length levels
  /\ Element (snd (process_row "1" "2" r)) = Listy ["x"; "y"; "x"; "y"; "x"; "y"].
Proof.
  cbv zeta. split; [vm_compute; lia|].
  repeat split; try reflexivity. vm_compute. discriminate.
Qed.

Lemma explode_row_Level (N : Type) (r : row cell N) (p : row (option string) N) :
  In p (explode_row r) -> In (Level p) (explode_cell (Level r)).
Proof.
  unfold explode_row. intros H. apply in_map_iff in H as ([l e] & <- & H).
  apply in_combine_l in H. exact H.
Qed.

(** C2, as the code has it: in a row that is split, where no two entries
    of "Level" in a row start with "B", the loop keeps exactly the pairs
    of a "Level" not starting with "B" and the "Element" at the same
    index, so that no row the split row explodes into has a "Level"
    starting with "B"; a row whose "Level" has no newline is not split and
    keeps its "Level", whatever it starts with. *)
Theorem B_entries_removed (N : Type) (g1 sf : string) (r : row string N) :
  let level := fst (snd (corrected g1 sf r)) in
  let element := snd (snd (corrected g1 sf r)) in
  let levels := split nl (strip nl level) in
  let elements := repeat_Element levels (split nl (strip nl element)) in
  (contains nl level = false ->
   snd (process_row g1 sf r)
   = set_Level_Element r (Scalar (Level r)) (Scalar element))
  /\ (contains nl level = true ->
      no_adjacent_B levels = true ->
      snd (process_row g1 sf r)
      = set_Level_Element r
          (Listy (map fst (kept_pairs levels elements)))
          (Listy (map snd (kept_pairs levels elements)
                  ++ skipn (List.length levels) elements))
      /\ map fst (kept_pairs levels elements)
         = filter (fun l => negb (startswith "B" l)) levels
      /\ forall p l,
           In p (explode_row (snd (process_row g1 sf r))) ->
           Level p = Some l -> startswith "B" l = false).
Proof.
  intros level element levels elements. split.
  - intros Hnl. subst level element. unfold process_row.
    assert (Hc : fst (snd (corrected g1 sf r)) = Level r).
    { unfold corrected in *.
      destruct (remove_spurious_newlines _ _) as [out el]. cbn [snd fst] in *.
      now rewrite hardcode_corrections_single. }
    destruct (corrected g1 sf r) as [out1 [level element]]. cbn [fst snd] in *.
    rewrite split_cells_unsplit by exact Hnl. cbn [snd]. now rewrite Hc.
  - intros Hnl Hadj.
    assert (Hlen : List.length levels <= List.length elements)
      by (apply repeat_Element_long, split_nonempty).
    assert (P : snd (process_row g1 sf r)
                = set_Level_Element r
                    (Listy (map fst (kept_pairs levels elements)))
                    (Listy (map snd (kept_pairs levels elements)
                            ++ skipn (List.length levels) elements))).
    { rewrite process_row_split by exact Hnl. cbn [snd].
      fold level element levels elements.
      rewrite remove_B_is_from, remove_B_from_kept by assumption. reflexivity. }
    split; [exact P|]. split; [now apply kept_pairs_fst|].
    intros p l Hp Hl. apply explode_row_Level in Hp.
    rewrite P, Hl in Hp. cbn [Level set_Level_Element explode_cell] in Hp.
    rewrite kept_pairs_fst in Hp by exact Hlen.
    destruct (filter _ levels) as [|a fl] eqn:F; [destruct Hp as [|[]]; discriminate|].
    apply in_map_iff in Hp as (x & [= ->] & Hx).
    rewrite <- F in Hx. apply filter_In in Hx as [_ Hx].
    now apply negb_true_iff in Hx.
Qed.

Lemma B_entries_removed_witness :
  let r := Row "" "BT-1" "" (lines ["x"; "y"; "z"]) (lines ["I.1"; "B.2"; "I.3"])
               ["1"] "2" [] in
  contains nl (fst (snd (corrected "1" "2" r))) = true
  /\ no_adjacent_B (split nl (strip nl (fst (snd (corrected "1" "2" r))))) = true
  /\ forall p l,
       In p (explode_row (snd (process_row "1" "2" r))) ->
       Level p = Some l -> startswith "B" l = false.
Proof.
  intros r. split; [reflexivity|]. split; [reflexivity|].
  apply (proj2 (@B_entries_removed (list string) "1" "2" r)); reflexivity.
Defined.

End SplitClaims.

Section SplitRuns.
Import Py Re Frame Manage.

(** C2 as it is stated fails: a "Level" without newline is not looked at by
    the loop that deletes, and the row is written with its "Level"
    starting with "B". *)
Lemma unsplit_B_level_emitted :
  let table := [SheetRow None None (Some "BT-1") (Some "Name") (Some "Element")
                         (Some "B 4.2") []] in
  extract_indices_mapping [[("eForm15 vs SF07", table)]]
  = ([], Returned [Row "" "BT-1" "Name" (Some "Element") (Some "B 4.2")
                       (Some "15") "7" []])
  /\ startswith "B" "B 4.2" = true.
Proof. split; reflexivity. Qed.

(** Of two B... entries in a row the loop deletes the first and steps over
    the second, which stays. *)
Lemma remove_B_adjacent :
  remove_B ["B.1"; "B.2"; "I.1"] ["x"; "y"; "z"] = (["B.2"; "I.1"], ["y"; "z"]).
Proof. reflexivity. Qed.

(** C3, as the code has it: a split row whose "Level" and "Element" differ
    in length after the repetition has the red "size differs" line
    written, with the notice numbers, the identifier and both lists;
    unless "Level" is a single B... entry, exploding the frame then raises,
    the sheet ends in a [ClickException] that names it, and the run writes
    no table. *)
Theorem size_differs_raises (sheet g1 sf : string) (table : list sheet_row)
        (df : list (row string (list string))) (r : row string (list string)) :
  let level := fst (snd (corrected g1 sf r)) in
  let element := snd (snd (corrected g1 sf r)) in
  let levels := split nl (strip nl level) in
  let elements := repeat_Element levels (split nl (strip nl element)) in
  classify sheet = Accept g1 sf ->
  normalize g1 sf table = Returned df ->
  In r df ->
  contains nl level = true ->
  List.length levels <> List.length elements ->
  In (Echo (Some red)
           (location g1 sf (ID r) ++ "size differs: " ++ str_list levels
            ++ " " ++ str_list elements))
     (fst (process_sheet sheet table))
  /\ ((forall b, levels = [b] -> startswith "B" b = false) ->
      snd (process_sheet sheet table)
      = Raised (ClickException
                  (sheet ++ ": columns must have matching element counts"))
      /\ forall files,
           In (sheet, table) (concat files) ->
           exists out e, extract_indices_mapping files = (out, Raised e)).
Proof.
  intros level element levels elements Hc Hn Hr Hnl Hne.
  pose proof (@process_row_split _ g1 sf r Hnl) as P.
  fold level element levels elements in P.
  rewrite (@process_sheet_accept sheet g1 sf table df Hc Hn). cbn [fst snd].
  split.
  - apply iterrows_echo with (r := r); [exact Hr|].
    rewrite P. cbn [fst]. apply in_or_app. right.
    apply Nat.eqb_neq in Hne. rewrite Hne. now left.
  - intros HB.
    assert (Hlt : List.length levels < List.length elements).
    { pose proof (@repeat_Element_long levels (split nl (strip nl element))
                                       (split_nonempty _ _)).
      fold elements in H. lia. }
    pose proof (remove_B_longer _ _ Hlt) as Hlonger.
    assert (Hnil : fst (remove_B levels elements) <> []).
    { intros E. rewrite remove_B_is_from in E.
      apply remove_B_from_nil in E as [E|(b & E & Eb)].
      - pose proof (split_nonempty nl (strip nl level)). contradiction.
      - rewrite (HB b E) in Eb. discriminate. }
    assert (R : explode_Level_Element (snd (iterrows g1 sf df))
                = Raised (ValueError "columns must have matching element counts")).
    { apply explode_Level_Element_raises with (r := snd (process_row g1 sf r)).
      - now apply iterrows_in.
      - rewrite P. cbn [snd Level Element set_Level_Element].
        assert (Hnil' : snd (remove_B levels elements) <> []).
        { intros E. rewrite E in Hlonger. simpl in Hlonger. lia. }
        rewrite (mylen_Listy Hnil), (mylen_Listy Hnil'). lia. }
    rewrite R. split; [reflexivity|].
    intros files Hin.
    apply run_raises with (sheet := sheet) (table := table)
                          (e := ClickException
                                  (sheet ++ ": columns must have matching element counts"));
      [exact Hin|].
    rewrite (@process_sheet_accept sheet g1 sf table df Hc Hn), R. reflexivity.
Qed.

Lemma size_differs_raises_witness :
  let sheet := "eForm15 vs SF07" in
  let table := [SheetRow None None (Some "BT-1") (Some "Name")
                         (Some (lines ["x"; "y"; "z"]))
                         (Some (lines ["I.1"; "I.2"])) []] in
  let df := map (normal_row "15" "7") table in
  let r := normal_row "15" "7" (hd (SheetRow None None None None None None []) table) in
  classify sheet = Accept "15" "7"
  /\ normalize "15" "7" table = Returned df
  /\ In r df
  /\ contains nl (fst (snd (corrected "15" "7" r))) = true
  /\ In (Echo (Some red)
              "eForm15 - SF7: BT-1: size differs: ['I.1', 'I.2'] ['x', 'y', 'z']")
        (fst (process_sheet sheet table)).
Proof.
  intros sheet table df r.
  split; [reflexivity|]. split; [reflexivity|]. split; [now left|].
  split; [reflexivity|].
  apply (@size_differs_raises sheet "15" "7" table df r);
    [reflexivity | reflexivity | now left | reflexivity | vm_compute; lia].
Defined.

(** C3 as it is stated fails: the run below has a row whose lists differ
    in length between two rows that are in order, and a second sheet in
    order; the line is written, and the run ends in an exception, without a
    table. *)
Lemma size_differs_aborts_run :
  let good := SheetRow None None (Some "BT-22") (Some "Title") (Some "Title")
                       (Some "II.1.1.1") [] in
  let bad := SheetRow None None (Some "BT-1") (Some "Name")
                      (Some (lines ["x"; "y"; "z"]))
                      (Some (lines ["I.1"; "I.2"])) [] in
  extract_indices_mapping
    [[("eForm15 vs SF07", [good; bad; good]); ("eForm16 vs SF08", [good])]]
  = ([Echo (Some red)
           "eForm15 - SF7: BT-1: size differs: ['I.1', 'I.2'] ['x', 'y', 'z']"],
     Raised (ClickException
               "eForm15 vs SF07: columns must have matching element counts")).
Proof. reflexivity. Qed.

(** The one case in which differing lengths do not raise: "Level" is a
    single B... entry, deleted with the first "Element"; the row is written
    with a missing "Level". *)
Lemma size_differs_single_B :
  let table := [SheetRow None None (Some "BT-1") (Some "Name")
                         (Some (lines ["x"; "y"])) (Some (lines ["B.1"; ""])) []] in
  extract_indices_mapping [[("eForm15 vs SF07", table)]]
  = ([Echo (Some red) "eForm15 - SF7: BT-1: size differs: ['B.1'] ['x', 'y']"],
     Returned [Row "" "BT-1" "Name" (Some "y") None (Some "15") "7" []]).
Proof. reflexivity. Qed.

End SplitRuns.

(* ================================================================== *)
(** ** The frame of a sheet and the notice columns *)

Section Sheet.
Import Py Re Frame Manage.

Lemma eformsNotice_of_nonempty (g1 : string) : eformsNotice_of g1 <> [].
Proof.
  unfold eformsNotice_of. pose proof (split_nonempty "," g1) as H.
  destruct (split "," g1); [congruence|discriminate].
Qed.

(** The frame of a sheet that goes on to the loop. *)
Lemma normalize_Returned (g1 sf : string) (table : list sheet_row)
      (df : list (row string (list string))) :
  let kept := filter (fun r => notna (c_Level r)) table in
  normalize g1 sf table = Returned df ->
  forallb (fun r => isna (c_Empty r)) kept = true
  /\ float64 (map c_Name table) = false
  /\ df = map (normal_row g1 sf) kept.
Proof.
  intros kept. unfold normalize, drop_Empty. fold kept.
  destruct (forallb _ kept); [|discriminate].
  destruct (float64 _); [discriminate|].
  intros [= <-]. repeat split.
Qed.

(** The exceptions of [normalize]. *)
Lemma normalize_Raised (g1 sf : string) (table : list sheet_row) (e : exn) :
  normalize g1 sf table = Raised e ->
  e = ClickException "The first column was expected to be empty."
  \/ (e = AttributeError /\ float64 (map c_Name table) = true).
Proof.
  unfold normalize, drop_Empty.
  destruct (forallb _ _); [|intros [= <-]; now left].
  destruct (float64 _); [|discriminate].
  intros [= <-]. right. now split.
Qed.

Lemma normalize_eformsNotice (g1 sf : string) (table : list sheet_row)
      (df : list (row string (list string))) :
  normalize g1 sf table = Returned df ->
  forall r, In r df -> eformsNotice r = eformsNotice_of g1.
Proof.
  intros H r Hr. apply normalize_Returned in H as (_ & _ & ->).
  apply in_map_iff in Hr as (x & <- & _). reflexivity.
Qed.

Lemma process_row_eformsNotice (N : Type) (g1 sf : string) (r : row string N) :
  eformsNotice (snd (process_row g1 sf r)) = eformsNotice r.
Proof.
  unfold process_row. destruct (corrected g1 sf r) as [out1 [level element]].
  now destruct (split_cells _ level element) as [out2 [L E]].
Qed.

Lemma explode_row_eformsNotice (N : Type) (r : row cell N)
      (p : row (option string) N) :
  In p (explode_row r) -> eformsNotice p = eformsNotice r.
Proof.
  unfold explode_row. intros H. apply in_map_iff in H as (le & <- & _).
  reflexivity.
Qed.

Lemma explode_Level_Element_in (N : Type) (df : list (row cell N))
      (placements : list (row (option string) N)) :
  explode_Level_Element df = Returned placements ->
  forall p, In p placements -> exists r, In r df /\ In p (explode_row r).
Proof.
  unfold explode_Level_Element. destruct (forallb _ df); [|discriminate].
  intros [= <-] p Hp. apply in_flat_map in Hp. exact Hp.
Qed.

(** C9: every row that reaches the explosion of "eformsNotice" becomes as
    many rows as it has notice numbers, one for each number in order, and
    each of them has the other columns of the row it comes from; the frame
    of the sheet is made of these rows, row after row. *)
Theorem notice_fan_out (sheet g1 sf : string) (table : list sheet_row)
        (df : list (row string (list string)))
        (placements : list (row (option string) (list string))) :
  classify sheet = Accept g1 sf ->
  normalize g1 sf table = Returned df ->
  explode_Level_Element (snd (iterrows g1 sf df)) = Returned placements ->
  snd (process_sheet sheet table)
  = Returned (Some (flat_map (@explode_notice_row (option string)) placements))
  /\ forall p, In p placements ->
       explode_notice_row p
       = map (fun n => set_eformsNotice p (Some n)) (eformsNotice p)
       /\ List.length (explode_notice_row p) = List.length (eformsNotice p)
       /\ forall q, In q (explode_notice_row p) ->
            Indent_level q = Indent_level p /\ ID q = ID p /\ Name q = Name p
            /\ Element q = Element p /\ Level q = Level p
            /\ sfNotice q = sfNotice p /\ rest q = rest p.
Proof.
  intros Hc Hn He.
  rewrite (@process_sheet_accept sheet g1 sf table df Hc Hn), He. cbn [snd].
  split; [reflexivity|]. intros p Hp.
  assert (Hne : eformsNotice p <> []).
  { destruct (explode_Level_Element_in _ He p Hp) as (r' & Hr' & Hpr).
    rewrite (explode_row_eformsNotice _ _ Hpr).
    unfold iterrows in Hr'. cbn [snd] in Hr'. rewrite map_map in Hr'.
    apply in_map_iff in Hr' as (r & <- & Hr).
    rewrite process_row_eformsNotice, (normalize_eformsNotice _ _ _ Hn r Hr).
    apply eformsNotice_of_nonempty. }
  assert (E : explode_notice_row p
              = map (fun n => set_eformsNotice p (Some n)) (eformsNotice p)).
  { unfold explode_notice_row, explode_list.
    destruct (eformsNotice p) as [|n l]; [congruence|].
    now rewrite map_map. }
  split; [exact E|]. split; [now rewrite E, length_map|].
  intros q Hq. rewrite E in Hq. apply in_map_iff in Hq as (n & <- & _).
  repeat split.
Qed.

Lemma notice_fan_out_witness :
  let sheet := "eForm15,18 vs SF07" in
  let table := [SheetRow None None (Some "BT-22") (Some "Internal Identifier")
                         (Some "Title") (Some "II.1.1.1") [Some "M"]] in
  let df := map (normal_row "15,18" "7") table in
  let placements := flat_map (@explode_row (list string)) (snd (iterrows "15,18" "7" df)) in
  classify sheet = Accept "15,18" "7"
  /\ normalize "15,18" "7" table = Returned df
  /\ explode_Level_Element (snd (iterrows "15,18" "7" df)) = Returned placements
  /\ snd (process_sheet sheet table)
     = Returned (Some (flat_map (@explode_notice_row (option string)) placements)).
Proof.
  intros sheet table df placements.
  split; [reflexivity|]. split; [reflexivity|]. split; [reflexivity|].
  apply (@notice_fan_out sheet "15,18" "7" table df placements); reflexivity.
Defined.

(** C7, as the code has it: once the rows without a "Level" are removed,
    the first column is dropped if no cell of it is filled in the rows that
    remain, and the sheet goes on with these rows, without that column,
    where its "Name" column is one of texts; the sheet ends in a
    [ClickException], and the run without a table, if a cell of the first
    column is filled in the rows that remain. *)
Theorem first_column_checked (sheet g1 sf : string) (table : list sheet_row) :
  let kept := filter (fun r => notna (c_Level r)) table in
  classify sheet = Accept g1 sf ->
  ((forall r, In r kept -> c_Empty r = None) ->
   drop_Empty table = Returned kept
   /\ (float64 (map c_Name table) = false ->
       normalize g1 sf table = Returned (map (normal_row g1 sf) kept)))
  /\ ((exists r, In r kept /\ c_Empty r <> None) ->
      process_sheet sheet table
      = ([], Raised (ClickException "The first column was expected to be empty."))
      /\ forall files,
           In (sheet, table) (concat files) ->
           exists out e, extract_indices_mapping files = (out, Raised e)).
Proof.
  intros kept Hc. split.
  - intros H.
    assert (Hd : drop_Empty table = Returned kept).
    { unfold drop_Empty. fold kept.
      replace (forallb (fun r => isna (c_Empty r)) kept) with true; [reflexivity|].
      symmetry. apply forallb_forall. intros r Hr. now rewrite (H r Hr). }
    split; [exact Hd|]. intros Hf. unfold normalize. now rewrite Hd, Hf.
  - intros (r & Hr & Hne).
    assert (Hn : normalize g1 sf table
                 = Raised (ClickException "The first column was expected to be empty.")).
    { unfold normalize, drop_Empty. fold kept.
      destruct (forallb (fun r => isna (c_Empty r)) kept) eqn:F; [|reflexivity].
      rewrite forallb_forall in F. specialize (F r Hr).
      destruct (c_Empty r); [discriminate|congruence]. }
    assert (Hp : process_sheet sheet table
                 = ([], Raised (ClickException
                                  "The first column was expected to be empty."))).
    { unfold process_sheet. now rewrite Hc, Hn. }
    split; [exact Hp|]. intros files Hin.
    apply run_raises with (sheet := sheet) (table := table)
            (e := ClickException "The first column was expected to be empty.");
      [exact Hin|now rewrite Hp].
Qed.

Lemma first_column_checked_witness :
  let sheet := "eForm15 vs SF07" in
  let table := [SheetRow (Some "note") None (Some "BT-22") (Some "Title")
                         (Some "Title") (Some "II.1.1.1") []] in
  classify sheet = Accept "15" "7"
  /\ (exists r, In r (filter (fun r => notna (c_Level r)) table)
                /\ c_Empty r <> None)
  /\ process_sheet sheet table
     = ([], Raised (ClickException "The first column was expected to be empty.")).
Proof.
  intros sheet table.
  assert (H : exists r, In r (filter (fun r => notna (c_Level r)) table)
                        /\ c_Empty r <> None).
  { exists (SheetRow (Some "note") None (Some "BT-22") (Some "Title")
                     (Some "Title") (Some "II.1.1.1") []).
    split; [now left|discriminate]. }
  split; [reflexivity|]. split; [exact H|].
  apply (proj2 (@first_column_checked sheet "15" "7" table eq_refl) H).
Defined.

(** A sheet that is kept and passes the check of its first column ends in
    an [AttributeError] where its "Name" column holds no text: nothing is
    written for it. *)
Lemma no_Name_raises (sheet g1 sf : string) (table : list sheet_row) :
  classify sheet = Accept g1 sf ->
  (forall r, In r table -> c_Level r <> None -> c_Empty r = None) ->
  float64 (map c_Name table) = true ->
  process_sheet sheet table = ([], Raised AttributeError).
Proof.
  intros Hc He Hf. unfold process_sheet, normalize, drop_Empty. rewrite Hc.
  replace (forallb _ (filter _ table)) with true; [now rewrite Hf|].
  symmetry. apply forallb_forall. intros r Hr. apply filter_In in Hr as [Hin Hl].
  rewrite (He r Hin); [reflexivity|]. now destruct (c_Level r).
Qed.

(** C7 as it is stated fails: a filled cell of the first column in a row
    without a "Level" is removed with its row before the column is looked
    at, and the sheet goes on. *)
Lemma first_column_filled_unnoticed :
  let note := SheetRow (Some "note") None None None None None [] in
  let good := SheetRow None None (Some "BT-22") (Some "Title") (Some "Title")
                       (Some "II.1.1.1") [] in
  c_Empty note <> None
  /\ extract_indices_mapping [[("eForm15 vs SF07", [note; good])]]
     = ([], Returned [Row "" "BT-22" "Title" (Some "Title") (Some "II.1.1.1")
                          (Some "15") "7" []]).
Proof. split; [discriminate|reflexivity]. Qed.

End Sheet.

(* ================================================================== *)
(** ** [repr] tells strings apart *)

Section Repr.
Import Py.

Lemma string_app_assoc (a b c : string) :
  ((a ++ b) ++ c)%string = (a ++ (b ++ c))%string.
Proof. induction a as [|x a IH]; simpl; [reflexivity|now rewrite IH]. Qed.

Lemma unrepr_repr_char (quote a : ascii) (t : string) :
  quote = squote \/ quote = dquote ->
  unrepr_char quote (repr_char quote a ++ t) = Some (a, t).
Proof.
  intros [->| ->];
    destruct a as [[] [] [] [] [] [] [] []]; reflexivity.
Qed.

Lemma unrepr_quote (quote : ascii) (t : string) :
  unrepr_char quote (String quote t) = None.
Proof. simpl. now rewrite Ascii.eqb_refl. Qed.

Lemma repr_quote_cases (s : string) :
  repr_quote s = squote \/ repr_quote s = dquote.
Proof. unfold repr_quote. destruct (_ && _); auto. Qed.

Lemma repr_body_inj (quote : ascii) (s1 : string) :
  quote = squote \/ quote = dquote ->
  forall s2 t : string,
    (repr_body quote s1 ++ String quote t)%string
    = (repr_body quote s2 ++ String quote t)%string ->
    s1 = s2.
Proof.
  intros Hq. induction s1 as [|a s1 IH]; intros s2 t E.
  - destruct s2 as [|b s2]; [reflexivity|]. exfalso.
    apply (f_equal (unrepr_char quote)) in E.
    cbn [repr_body] in E. rewrite string_app_assoc in E.
    rewrite (unrepr_repr_char b _ Hq) in E.
    simpl (("" ++ _)%string) in E. rewrite unrepr_quote in E. discriminate.
  - destruct s2 as [|b s2].
    + exfalso. apply (f_equal (unrepr_char quote)) in E.
      cbn [repr_body] in E. rewrite string_app_assoc in E.
      rewrite (unrepr_repr_char a _ Hq) in E.
      simpl (("" ++ _)%string) in E. rewrite unrepr_quote in E. discriminate.
    + cbn [repr_body] in E. rewrite !string_app_assoc in E.
      apply (f_equal (unrepr_char quote)) in E.
      rewrite !(unrepr_repr_char _ _ Hq) in E.
      injection E as <- E. now rewrite (IH s2 t E).
Qed.

(** Two strings whose [repr], followed by the same text, are the same have
    all their characters the same. *)
Lemma repr_inj (s1 s2 t : string) :
  (repr s1 ++ t)%string = (repr s2 ++ t)%string -> s1 = s2.
Proof.
  unfold repr. intros E. simpl in E. injection E as Eq E.
  rewrite <- Eq in E. unfold chr in E.
  rewrite !string_app_assoc in E. simpl in E.
  exact (repr_body_inj s1 (repr_quote_cases s1) s2 t E).
Qed.

End Repr.

(* ================================================================== *)
(** ** Sheet names *)

Section SheetNames.
Import Py Re Frame Manage.

Lemma ignored_iff (sheet : string) :
  ignored sheet = true
  <-> In sheet ignore_sheets
      \/ exists regex, In regex ignore_sheet_regex /\ search regex sheet <> None.
Proof.
  unfold ignored. rewrite orb_true_iff, !existsb_exists. split.
  - intros [(x & Hx & E)|(regex & Hx & E)].
    + left. apply String.eqb_eq in E. now subst x.
    + right. exists regex. split; [exact Hx|].
      destruct (search regex sheet); [discriminate|discriminate E].
  - intros [H|(regex & Hx & E)].
    + left. exists sheet. split; [exact H|apply String.eqb_refl].
    + right. exists regex. split; [exact Hx|].
      destruct (search regex sheet); [reflexivity|congruence].
Qed.

(** The message of the exception for an unknown sheet names one sheet
    only. *)
Lemma unknown_sheet_inj (s1 s2 : string) :
  unknown_sheet s1 = unknown_sheet s2 -> s1 = s2.
Proof.
  unfold unknown_sheet. intros E.
  assert (C : forall p a b : string, (p ++ a)%string = (p ++ b)%string -> a = b).
  { induction p as [|x p IH]; simpl; intros a b H; [exact H|].
    injection H as H. now apply IH. }
  apply C in E. exact (repr_inj E).
Qed.

(** Both groups of the pattern of the sheets to keep have a text in every
    match, so that no [AttributeError] is raised. *)
Lemma keep_sheet_groups (sheet : string) (m : result) :
  search keep_sheet_regex sheet = Some m ->
  exists g1 g2, group 1 m = Some g1 /\ group 2 m = Some g2.
Proof.
  intros H. pose proof (search_groups _ _ H) as G.
  assert (G1 : group 1 m <> None) by (apply G; simpl; auto).
  assert (G2 : group 2 m <> None) by (apply G; simpl; auto).
  destruct (group 1 m) as [g1|]; [|congruence].
  destruct (group 2 m) as [g2|]; [|congruence].
  now exists g1, g2.
Qed.

(** A sheet is ignored, kept with its two notice numbers, or unknown. *)
Lemma classify_cases (sheet : string) :
  classify sheet = Ignore
  \/ (exists g1 sf, classify sheet = Accept g1 sf)
  \/ classify sheet = Raise (ClickException (unknown_sheet sheet)).
Proof.
  unfold classify. destruct (ignored sheet); [now left|]. right.
  destruct (search keep_sheet_regex sheet) as [m|] eqn:S; [|now right].
  destruct (keep_sheet_groups _ S) as (g1 & g2 & -> & ->).
  left. now exists g1, (lstrip "0" g2).
Qed.

(** C5: "eForm15,18 vs SF07" is kept, with the notice numbers 15 and 18
    for the eForms and 7 for the standard form; the numbers of any sheet
    that is kept are those of the two groups of the pattern with their
    leading zeros removed, so that none starts with a zero. *)
Theorem kept_sheet_notice_numbers :
  (classify "eForm15,18 vs SF07" = Accept "15,18" "7"
   /\ eformsNotice_of "15,18" = ["15"; "18"])
  /\ forall sheet g1 sf,
       classify sheet = Accept g1 sf ->
       (exists m g2,
           search keep_sheet_regex sheet = Some m
           /\ group 1 m = Some g1 /\ group 2 m = Some g2
           /\ sf = lstrip "0" g2)
       /\ eformsNotice_of g1 = map (lstrip "0") (split "," g1)
       /\ startswith "0" sf = false
       /\ forall n, In n (eformsNotice_of g1) -> startswith "0" n = false.
Proof.
  split; [split; reflexivity|].
  intros sheet g1 sf H. unfold classify in H.
  destruct (ignored sheet); [discriminate|].
  destruct (search keep_sheet_regex sheet) as [m|] eqn:S; [|discriminate].
  destruct (group 1 m) as [x|] eqn:G1; [|discriminate].
  destruct (group 2 m) as [g2|] eqn:G2; [|discriminate].
  injection H as -> <-.
  split; [now exists m, g2|]. split; [reflexivity|].
  split; [apply lstrip_zero_startswith|].
  intros n Hn. unfold eformsNotice_of in Hn.
  apply in_map_iff in Hn as (x & <- & _). apply lstrip_zero_startswith.
Qed.

Lemma kept_sheet_notice_numbers_witness :
  classify "eForm01,02 vs SF03" = Accept "01,02" "3"
  /\ eformsNotice_of "01,02" = ["1"; "2"]
  /\ forall n, In n (eformsNotice_of "01,02") -> startswith "0" n = false.
Proof.
  split; [reflexivity|]. split; [reflexivity|].
  apply (proj2 kept_sheet_notice_numbers "eForm01,02 vs SF03" "01,02" "3" eq_refl).
Defined.

(** C6: a sheet whose name is not among the ignored ones and matches none
    of the patterns raises a [ClickException] whose message holds the
    [repr] of the name, a message no other name gives; the sheet writes
    nothing, and a run that has such a sheet ends in an exception, which is
    this one when the sheet is the first one, and writes no table. *)
Theorem unknown_sheet_raises (sheet : string) :
  ~ In sheet ignore_sheets ->
  (forall regex, In regex ignore_sheet_regex -> search regex sheet = None) ->
  search keep_sheet_regex sheet = None ->
  classify sheet = Raise (ClickException (unknown_sheet sheet))
  /\ unknown_sheet sheet
     = ("The sheet name " ++ repr sheet ++ " doesn't match a known pattern.")%string
  /\ (forall other, unknown_sheet other = unknown_sheet sheet -> other = sheet)
  /\ (forall table,
        process_sheet sheet table
        = ([], Raised (ClickException (unknown_sheet sheet))))
  /\ (forall files table,
        In (sheet, table) (concat files) ->
        exists out e, extract_indices_mapping files = (out, Raised e))
  /\ (forall table sheets files,
        extract_indices_mapping (((sheet, table) :: sheets) :: files)
        = ([], Raised (ClickException (unknown_sheet sheet)))).
Proof.
  intros Hset Hre Hkeep.
  assert (Hi : ignored sheet = false).
  { destruct (ignored sheet) eqn:I; [|reflexivity].
    apply ignored_iff in I as [I|(regex & Hin & Hs)]; [contradiction|].
    now rewrite (Hre regex Hin) in Hs. }
  assert (Hc : classify sheet = Raise (ClickException (unknown_sheet sheet))).
  { unfold classify. now rewrite Hi, Hkeep. }
  assert (Hp : forall table,
             process_sheet sheet table
             = ([], Raised (ClickException (unknown_sheet sheet)))).
  { intros table. unfold process_sheet. now rewrite Hc. }
  split; [exact Hc|]. split; [reflexivity|].
  split; [intros other; apply unknown_sheet_inj|].
  split; [exact Hp|]. split.
  - intros files table Hin.
    apply run_raises with (sheet := sheet) (table := table)
                          (e := ClickException (unknown_sheet sheet));
      [exact Hin|now rewrite Hp].
  - intros table sheets files. unfold extract_indices_mapping.
    cbn [concat app sheets_loop]. now rewrite Hp.
Qed.

Lemma unknown_sheet_raises_witness :
  ~ In "Random Sheet" ignore_sheets
  /\ (forall regex, In regex ignore_sheet_regex -> search regex "Random Sheet" = None)
  /\ search keep_sheet_regex "Random Sheet" = None
  /\ classify "Random Sheet"
     = Raise (ClickException
                "The sheet name 'Random Sheet' doesn't match a known pattern.").
Proof.
  assert (H1 : ~ In "Random Sheet" ignore_sheets).
  { intros H. repeat (destruct H as [H|H]; [discriminate H|]). exact H. }
  assert (H2 : forall regex, In regex ignore_sheet_regex ->
                             search regex "Random Sheet" = None).
  { intros regex H. repeat (destruct H as [<-|H]; [reflexivity|]). destruct H. }
  split; [exact H1|]. split; [exact H2|]. split; [reflexivity|].
  apply (proj1 (unknown_sheet_raises H1 H2 eq_refl)).
Defined.

(** C10: a sheet whose name is among the ignored ones, or matches one of
    the patterns to ignore, is passed over, whatever it holds and whether
    or not its name matches the pattern of the sheets to keep: it writes
    nothing, raises nothing and adds no frame, and the run is that of the
    other sheets.  "eN40 vs F20" is such a name, which matches the pattern
    of the sheets to keep. *)
Theorem ignored_sheet_skipped (sheet : string) :
  In sheet ignore_sheets
  \/ (exists regex, In regex ignore_sheet_regex /\ search regex sheet <> None) ->
  classify sheet = Ignore
  /\ (forall table, process_sheet sheet table = ([], Returned None))
  /\ (forall table sheets dfs,
        sheets_loop ((sheet, table) :: sheets) dfs = sheets_loop sheets dfs)
  /\ (In "eN40 vs F20" ignore_sheets
      /\ search keep_sheet_regex "eN40 vs F20" = Some ([(2, "20"); (1, "40")], "")
      /\ classify "eN40 vs F20" = Ignore).
Proof.
  intros H. apply ignored_iff in H.
  assert (Hc : classify sheet = Ignore) by (unfold classify; now rewrite H).
  assert (Hp : forall table, process_sheet sheet table = ([], Returned None))
    by (intros table; unfold process_sheet; now rewrite Hc).
  split; [exact Hc|]. split; [exact Hp|]. split.
  - intros table sheets dfs. cbn [sheets_loop]. rewrite Hp.
    now destruct (sheets_loop sheets dfs).
  - split; [right; now left|]. split; reflexivity.
Qed.

Lemma ignored_sheet_skipped_witness :
  (In "SF21 vs eForm 12,13" ignore_sheets
   \/ exists regex, In regex ignore_sheet_regex
                    /\ search regex "SF21 vs eForm 12,13" <> None)
  /\ classify "SF21 vs eForm 12,13" = Ignore.
Proof.
  assert (H : In "SF21 vs eForm 12,13" ignore_sheets
              \/ exists regex, In regex ignore_sheet_regex
                               /\ search regex "SF21 vs eForm 12,13" <> None).
  { right. eexists. split; [right; left; reflexivity|]. vm_compute. discriminate. }
  split; [exact H|]. apply (proj1 (ignored_sheet_skipped H)).
Defined.

End SheetNames.

(* ================================================================== *)
(** ** More on [extract_indices_mapping] *)

Section Run.
Import Py Re Frame Manage Shape.

Lemma ignored_process_sheet (sheet : string) (table : list sheet_row) :
  ignored sheet = true -> process_sheet sheet table = ([], Returned None).
Proof. intros H. unfold process_sheet, classify. now rewrite H. Qed.

(** A run in which every sheet is one to ignore, or which has no sheet,
    has no frame to concatenate: it ends in the [ValueError] of
    [pd.concat] and writes no table. *)
Theorem all_ignored_no_table (files : list (list (string * list sheet_row))) :
  (forall sheet table, In (sheet, table) (concat files) -> ignored sheet = true) ->
  extract_indices_mapping files
  = ([], Raised (ValueError "No objects to concatenate")).
Proof.
  intros H. unfold extract_indices_mapping.
  assert (L : sheets_loop (concat files) [] = ([], Returned [])).
  { induction (concat files) as [|[sheet table] sheets IH]; [reflexivity|].
    cbn [sheets_loop].
    rewrite ignored_process_sheet by (apply (H sheet table); now left).
    rewrite IH; [reflexivity|]. intros s t Hin. apply (H s t). now right. }
  now rewrite L.
Qed.

Lemma all_ignored_no_table_witness :
  extract_indices_mapping
    [[("Legend", [SheetRow None None (Some "BT-1") None (Some "x") (Some "I.1") []]);
      ("F02 vs eN16", [])]; []]
  = ([], Raised (ValueError "No objects to concatenate")).
Proof.
  apply all_ignored_no_table.
  intros sheet table [H|[H|[]]]; injection H as <- _; reflexivity.
Defined.

Lemma sheets_loop_in_order (sheets : list (string * list sheet_row)) :
  forall dfs out res,
    sheets_loop sheets dfs = (out, Returned res) ->
    out = flat_map lines_of sheets
    /\ concat res = concat dfs ++ flat_map rows_of sheets.
Proof.
  induction sheets as [|[sheet table] sheets IH]; intros dfs out res H.
  - injection H as <- <-. now rewrite app_nil_r.
  - cbn [sheets_loop] in H. cbn [flat_map]. unfold lines_of at 1, rows_of at 1.
    cbn [fst snd].
    destruct (process_sheet sheet table) as [o [e|[df|]]]; [discriminate| |].
    + destruct (sheets_loop sheets (dfs ++ [df])) as [o' r] eqn:E.
      injection H as <- ->. destruct (IH _ _ _ E) as [-> ->].
      split; [reflexivity|]. cbn [snd]. rewrite concat_app. simpl.
      now rewrite app_nil_r, app_assoc.
    + destruct (sheets_loop sheets dfs) as [o' r] eqn:E.
      injection H as <- ->. destruct (IH _ _ _ E) as [-> ->].
      split; reflexivity.
Qed.

(** A run that writes its table has written, sheet after sheet in the
    order of the workbooks, the lines of each sheet, and the table holds
    the rows of each sheet in the same order; a sheet that is passed over
    adds nothing to either. *)
Theorem run_in_order (files : list (list (string * list sheet_row)))
        (out : list echo) (table : list corpus_row) :
  extract_indices_mapping files = (out, Returned table) ->
  out = flat_map lines_of (concat files)
  /\ table = flat_map rows_of (concat files).
Proof.
  unfold extract_indices_mapping.
  destruct (sheets_loop (concat files) []) as [o [e|res]] eqn:E; [discriminate|].
  apply sheets_loop_in_order in E as [-> E].
  destruct res as [|df res]; [discriminate|].
  intros [= <- <-]. split; [reflexivity|]. exact E.
Qed.

Lemma run_in_order_witness :
  let row := SheetRow None None (Some "BT-22") (Some "Title") (Some "Title")
                      (Some "II.1.1.1") [] in
  let files := [[("eForm15 vs SF07", [row]); ("Legend", [])];
                [("eForm16 vs SF08", [row])]] in
  snd (extract_indices_mapping files) = Returned (flat_map rows_of (concat files)).
Proof.
  intros row files.
  destruct (extract_indices_mapping files) as [out [e|table]] eqn:E;
    [vm_compute in E; discriminate|].
  cbn [snd]. f_equal. exact (proj2 (run_in_order files E)).
Defined.

End Run.

(* ================================================================== *)
(** ** More on the loop over the rows *)

Section Rows.
Import Py Re Frame Manage Shape.

(** The loop that deletes B... entries deletes whole pairs only, and none
    whose "Level" does not start with "B": what it leaves, paired by
    index, are pairs of the lists it was given, in their order, and all
    the pairs without "B" are among them. *)
Theorem remove_B_keeps_pairs (Level Element : list string) :
  sublist (kept_pairs Level Element)
          (combine (fst (remove_B Level Element)) (snd (remove_B Level Element)))
  /\ sublist (combine (fst (remove_B Level Element)) (snd (remove_B Level Element)))
             (combine Level Element).
Proof.
  rewrite remove_B_is_from. unfold kept_pairs. revert Element.
  induction Level as [|a|a b l IHl IHbl] using list_pair_ind; intros Element.
  - split; constructor.
  - destruct Element as [|e E]; [split; constructor|].
    cbn [remove_B_from combine filter fst snd].
    destruct (startswith "B" a); cbn [negb fst snd combine].
    + split; constructor.
    + destruct E; split; repeat constructor.
  - destruct Element as [|e E]; [split; constructor|].
    specialize (IHbl E). remember (b :: l) as bl eqn:Hbl.
    cbn [remove_B_from]. destruct (startswith "B" a) eqn:Ha.
    + subst bl. destruct E as [|e2 E].
      * cbn [fst snd combine filter]. rewrite Ha. split; constructor.
      * specialize (IHl E). destruct (remove_B_from l E) as [x y].
        cbn [fst snd combine filter] in *. rewrite Ha. cbn [negb].
        destruct IHl as [K S]. split.
        -- destruct (negb (startswith "B" b)); [now constructor|now constructor].
        -- now repeat constructor.
    + destruct (remove_B_from bl E) as [x y].
      cbn [fst snd combine filter] in *. rewrite Ha. cbn [negb].
      destruct IHbl as [K S]. split; now constructor.
Qed.

End Rows.

Section RowCount.
Import Py Re Frame Manage Shape.

Lemma explode_cell_length (c : cell) : List.length (explode_cell c) = mylen c.
Proof. destruct c as [s|[|a l]]; simpl; [reflexivity|reflexivity|now rewrite length_map]. Qed.

Lemma mylen_pos (c : cell) : 1 <= mylen c.
Proof. destruct c as [s|[|a l]]; simpl; lia. Qed.

Lemma explode_row_length (N : Type) (r : row cell N) :
  mylen (Level r) = mylen (Element r) ->
  List.length (explode_row r) = mylen (Level r).
Proof.
  intros H. unfold explode_row.
  rewrite length_map, length_combine, !explode_cell_length. lia.
Qed.

Lemma flat_map_constant (A B : Type) (f : A -> list B) (k : nat) (l : list A) :
  (forall a, In a l -> List.length (f a) = k) ->
  List.length (flat_map f l) = k * List.length l.
Proof.
  induction l as [|a l IH]; intros H; simpl; [lia|].
  rewrite length_app, (H a (or_introl eq_refl)), IH by (intros; apply H; now right).
  lia.
Qed.

Lemma list_sum_at_least (A : Type) (f : A -> nat) (l : list A) :
  (forall a, 1 <= f a) -> List.length l <= list_sum (map f l).
Proof.
  intros H. induction l as [|a l IH]; simpl; [lia|]. specialize (H a). lia.
Qed.

(** The frame of a sheet that is kept has, for every row of the sheet with
    a "Level", as many rows as the row has entries after the loop, an
    emptied "Level" counting for one, times the number of eForms notices
    of the sheet: no row with a "Level" goes without a row in the table. *)
Theorem sheet_row_count (sheet g1 sf : string) (table : list sheet_row)
        (frame : list corpus_row) :
  let kept := filter (fun r => notna (c_Level r)) table in
  let df := snd (iterrows g1 sf (map (normal_row g1 sf) kept)) in
  classify sheet = Accept g1 sf ->
  snd (process_sheet sheet table) = Returned (Some frame) ->
  List.length frame
  = List.length (eformsNotice_of g1) * list_sum (map (fun r => mylen (Level r)) df)
  /\ List.length (eformsNotice_of g1) * List.length kept <= List.length frame.
Proof.
  intros kept df Hc H.
  assert (Hn : normalize g1 sf table = Returned (map (normal_row g1 sf) kept)).
  { unfold process_sheet in H. rewrite Hc in H.
    destruct (normalize g1 sf table) as [e|d] eqn:N; [discriminate|].
    apply normalize_Returned in N as (_ & _ & ->). reflexivity. }
  rewrite (@process_sheet_accept sheet g1 sf table _ Hc Hn) in H. cbn [snd] in H.
  fold df in H.
  destruct (explode_Level_Element df) as [[]|placements] eqn:E; try discriminate.
  injection H as <-.
  assert (Hk : forall p, In p placements ->
                         List.length (explode_notice_row p)
                         = List.length (eformsNotice_of g1)).
  { intros p Hp. unfold explode_notice_row. rewrite length_map.
    destruct (explode_Level_Element_in _ E p Hp) as (r' & Hr' & Hpr).
    rewrite (explode_row_eformsNotice _ _ Hpr).
    unfold df, iterrows in Hr'. cbn [snd] in Hr'. rewrite map_map in Hr'.
    apply in_map_iff in Hr' as (r & <- & Hr).
    rewrite process_row_eformsNotice, (normalize_eformsNotice _ _ _ Hn r Hr).
    pose proof (eformsNotice_of_nonempty g1) as Hne.
    unfold explode_list. destruct (eformsNotice_of g1); [congruence|].
    now rewrite length_map. }
  unfold explode_eformsNotice, corpus_row.
  pose proof (@flat_map_constant _ _ _ (List.length (eformsNotice_of g1)) placements Hk)
    as Hf.
  unfold corpus_row in Hf. cbv beta in Hf. rewrite Hf. clear Hf.
  assert (Hp : List.length placements
               = list_sum (map (fun r => mylen (Level r)) df)).
  { unfold explode_Level_Element in E.
    destruct (forallb _ df) eqn:F; [|discriminate]. injection E as <-.
    rewrite length_flat_map. f_equal. apply map_ext_in.
    intros r Hr. rewrite forallb_forall in F. specialize (F r Hr).
    apply Nat.eqb_eq in F. now apply explode_row_length. }
  split; [now rewrite Hp|]. rewrite Hp.
  apply Nat.mul_le_mono_l.
  replace (List.length kept) with (List.length df)
    by (unfold df, iterrows; cbn [snd]; now rewrite !length_map).
  apply list_sum_at_least. intros r. apply mylen_pos.
Qed.

Lemma sheet_row_count_witness :
  let table := [SheetRow None None (Some "BT-1") (Some "One") (Some (lines ["x"; "y"]))
                         (Some (lines ["I.1"; "I.2"])) [];
                SheetRow None None (Some "BT-2") None (Some "z") None [];
                SheetRow None None (Some "BT-3") None (Some "t") (Some "II.1") []] in
  classify "eForm15,18 vs SF07" = Accept "15,18" "7"
  /\ List.length (rows_of ("eForm15,18 vs SF07", table)) = 2 * (2 + 1).
Proof.
  intros table. split; [reflexivity|].
  destruct (snd (process_sheet "eForm15,18 vs SF07" table)) as [e|[frame|]] eqn:E;
    try (vm_compute in E; discriminate).
  unfold rows_of. cbn [fst snd]. rewrite E.
  rewrite (proj1 (@sheet_row_count "eForm15,18 vs SF07" "15,18" "7" table frame
                                   eq_refl E)).
  reflexivity.
Defined.

End RowCount.

Section CleanupShape.
Import Py Re Frame Manage Shape.

Lemma unspaced_app (s t : string) :
  unspaced (s ++ t) = (unspaced s ++ unspaced t)%string.
Proof.
  induction s as [|a s IH]; simpl; [reflexivity|].
  destruct (_ || _); simpl; now rewrite IH.
Qed.

(** Two newlines in a row replaced by one. *)
Lemma unspaced_replace_doubled (n : nat) :
  forall s, String.length s <= n ->
            unspaced (replace (NL ++ NL) NL s) = unspaced s.
Proof.
  unfold replace.
  induction n as [|n IH]; intros s Hn.
  - destruct s; [reflexivity|simpl in Hn; lia].
  - destruct s as [|a t]; [reflexivity|]. simpl in Hn.
    cbn [replace_go]. change (NL ++ NL)%string with (String nl (String nl "")).
    cbn [startswith].
    destruct (Ascii.eqb_spec nl a) as [<-|Ha].
    + destruct t as [|b t'].
      * reflexivity.
      * destruct (Ascii.eqb_spec nl b) as [<-|Hb].
        -- cbn [andb String.length Nat.sub replace_go].
           change (NL ++ ?x)%string with (String nl x).
           cbn [unspaced]. rewrite Ascii.eqb_refl. cbn [orb].
           apply IH. simpl in Hn. lia.
        -- cbn [andb]. cbn [unspaced]. rewrite Ascii.eqb_refl. cbn [orb].
           apply IH. simpl in Hn |- *. lia.
    + cbn [andb]. cbn [unspaced].
      destruct (_ || _); [apply IH|f_equal; apply IH]; lia.
Qed.

(** A match of the pattern is one newline. *)
Lemma match_replace_newlines_one (p : option ascii) (s : string) (m : result) :
  match_at replace_newlines p s = Some m -> s = String nl (snd m).
Proof.
  destruct s as [|a t]; [discriminate|].
  unfold match_at, replace_newlines. cbn [run].
  destruct (Ascii.eqb_spec a nl) as [->|_]; [|discriminate].
  destruct (match _ with Some m0 => Some m0 | None => _ end) as [[g x]|];
    [|discriminate].
  now intros [= <-].
Qed.

Lemma unspaced_sub_newlines (s : string) :
  forall p, unspaced (sub_go replace_newlines (fun _ => " "%string) p s 0)
            = unspaced s.
Proof.
  induction s as [|a t IH]; intros p.
  - cbn [sub_go]. destruct (match_at replace_newlines p "") as [[g x]|] eqn:E;
      [apply match_replace_newlines_one in E; discriminate|reflexivity].
  - cbn [sub_go].
    destruct (match_at replace_newlines p (String a t)) as [[g x]|] eqn:E.
    + apply match_replace_newlines_one in E. cbn [snd] in E. injection E as -> <-.
      replace (String.length (String nl t) - String.length t) with 1
        by (cbn [String.length]; lia).
      change (" " ++ ?y)%string with (String " " y).
      cbn [unspaced]. rewrite Ascii.eqb_refl. cbn [orb].
      change (Ascii.eqb " " nl || Ascii.eqb " " " ") with true. cbn iota.
      apply IH.
    + cbn [unspaced]. now rewrite IH.
Qed.

(** The clean-up of "Element" touches newlines only, which it removes or
    turns into spaces: but for newlines and spaces, the text is the
    same. *)
Theorem cleanup_touches_newlines_only (location element : string) :
  unspaced (snd (remove_spurious_newlines location element)) = unspaced element.
Proof.
  unfold remove_spurious_newlines.
  pose proof (@unspaced_replace_doubled (String.length element) element (le_n _)) as R.
  destruct (search replace_newlines _); cbn [snd]; [|exact R].
  unfold sub. now rewrite unspaced_sub_newlines.
Qed.

End CleanupShape.

(* ================================================================== *)
(** ** [find] *)

Section Find.
Import Py Frame Commands.

(** [find] names the first workbook of the archive that has the sheet,
    and says that the sheet is not found when no workbook has it. *)
Theorem find_first (sheet : string) (files : list (string * list string)) :
  (exists before name sheet_names after,
      files = before ++ (name, sheet_names) :: after
      /\ In sheet sheet_names
      /\ (forall n s, In (n, s) before -> ~ In sheet s)
      /\ find sheet files = Echo None ("First occurrence: " ++ name))
  \/ ((forall n s, In (n, s) files -> ~ In sheet s)
      /\ find sheet files = Echo (Some red) ("Sheet '" ++ sheet ++ "' not found")).
Proof.
  induction files as [|[name sheet_names] files IH].
  - right. split; [intros n s []|reflexivity].
  - cbn [find]. destruct (existsb (String.eqb sheet) sheet_names) eqn:E.
    + left. exists [], name, sheet_names, files.
      split; [reflexivity|]. split.
      * apply existsb_exists in E as (x & Hx & E). apply String.eqb_eq in E.
        now subst x.
      * split; [intros n s []|reflexivity].
    + assert (Hno : ~ In sheet sheet_names).
      { intros Hin. assert (T : existsb (String.eqb sheet) sheet_names = true).
        { apply existsb_exists. exists sheet. split; [exact Hin|apply String.eqb_refl]. }
        rewrite T in E. discriminate. }
      destruct IH as [(before & n & s & after & -> & Hin & Hb & Hf)|[Hall Hf]].
      * left. exists ((name, sheet_names) :: before), n, s, after.
        split; [reflexivity|]. split; [exact Hin|]. split; [|exact Hf].
        intros n' s' [[= <- <-]|H']; [exact Hno|now apply (Hb n' s')].
      * right. split; [|exact Hf].
        intros n' s' [[= <- <-]|H']; [exact Hno|now apply (Hall n' s')].
Qed.

End Find.

(* ================================================================== *)
(** ** [extract_hierarchy] *)

Section Hierarchy.
Import Py Frame Commands.




Lemma last_at_snoc (j : nat) (rows : list term) (row : term) :
  last_at j (rows ++ [row])
  = if level_of row =? j then Some (t_ID row) else last_at j rows.
Proof. unfold last_at. now rewrite fold_left_app. Qed.

Lemma map_last_at_snoc (rows : list term) (row : term) (n : nat) :
  n < level_of row ->
  map (fun j => last_at j (rows ++ [row])) (List.seq 1 n)
  = map (fun j => last_at j rows) (List.seq 1 n).
Proof.
  intros H. apply map_ext_in. intros j Hj. apply in_seq in Hj.
  rewrite last_at_snoc.
  destruct (Nat.eqb_spec (level_of row) j); [lia|reflexivity].
Qed.

Lemma firstn_seq_le (n start len : nat) :
  n <= len -> firstn n (List.seq start len) = List.seq start n.
Proof.
  revert start len. induction n as [|n IH]; intros start len H; [reflexivity|].
  destruct len as [|len]; [lia|]. simpl. rewrite IH by lia. reflexivity.
Qed.

Lemma hierarchy_loop_ancestors (rest : list term) :
  forall done data previous_level,
    nested previous_level rest ->
    hierarchy_loop rest data
                   (map (fun j => last_at j done) (List.seq 1 previous_level))
                   previous_level
    = Done (data ++ with_ancestors done rest).
Proof.
  induction rest as [|row rest IH]; intros done data previous_level Hn.
  - cbn [hierarchy_loop with_ancestors]. now rewrite app_nil_r.
  - cbn [nested] in Hn. destruct Hn as ([level Hl] & Hlev & Hn).
    cbn [hierarchy_loop with_ancestors]. rewrite Hl.
    assert (Hc : String.length level = level_of row)
      by (unfold level_of; now rewrite Hl).
    rewrite Hc. clear Hc.
    assert (Hsnoc : forall n, n < level_of row ->
                              map (fun j => last_at j (done ++ [row])) (List.seq 1 n)
                              = map (fun j => last_at j done) (List.seq 1 n))
      by (intros n; apply map_last_at_snoc).
    assert (Hnew : last_at (level_of row) (done ++ [row]) = Some (t_ID row))
      by (now rewrite last_at_snoc, Nat.eqb_refl).
    remember (level_of row) as c eqn:Ec. clear Ec.
    destruct c as [|k]; [lia|].
    replace (S k - 1) with k by lia.
    set (f := fun j => last_at j done) in *.
    assert (L : (if previous_level <? S k
                 then map f (List.seq 1 previous_level) ++ [None]
                 else if S k <? previous_level
                      then firstn (S k) (map f (List.seq 1 previous_level))
                      else map f (List.seq 1 previous_level))
                = map f (List.seq 1 k)
                  ++ [if previous_level <? S k then None else f (S k)]).
    { destruct (Nat.ltb_spec previous_level (S k)) as [Hlt|Hge].
      - replace previous_level with k by lia. reflexivity.
      - destruct (Nat.ltb_spec (S k) previous_level) as [Hlt|Hge'].
        + rewrite firstn_map, firstn_seq_le by lia.
          rewrite seq_S, map_app. reflexivity.
        + replace previous_level with (S k) by lia.
          rewrite seq_S, map_app. reflexivity. }
    rewrite L.
    destruct (map f (List.seq 1 k) ++ [if previous_level <? S k then None else f (S k)])
      as [|x l] eqn:E; [now destruct (map f (List.seq 1 k))|].
    rewrite <- E, !removelast_last.
    replace (map f (List.seq 1 k) ++ [Some (t_ID row)])
      with (map (fun j => last_at j (done ++ [row])) (List.seq 1 (S k))).
    + rewrite (IH (done ++ [row]) _ (S k) Hn), <- app_assoc. reflexivity.
    + rewrite seq_S, map_app. cbn [map].
      rewrite Hsnoc by lia. replace (1 + k) with (S k) by lia.
      now rewrite Hnew.
Qed.

(** Where the levels start at one and never go up by more than one,
    [extract_hierarchy] puts beside each identifier those of the last rows
    before it at each level above its own, from the top one down: the
    groups the row is in. *)
Theorem extract_hierarchy_ancestors (rows : list term) :
  nested 0 rows ->
  extract_hierarchy rows = Done (with_ancestors [] rows).
Proof.
  intros H. unfold extract_hierarchy.
  exact (hierarchy_loop_ancestors rows [] [] 0 H).
Qed.

Lemma extract_hierarchy_ancestors_witness :
  let rows := [Term "BG-1" (Some "+") []; Term "BG-2" (Some "++") [];
               Term "BT-1" (Some "+++") []; Term "BT-2" (Some "++") [];
               Term "BG-3" (Some "+") []; Term "BT-3" (Some "++") []] in
  nested 0 rows
  /\ extract_hierarchy rows
     = Done [[Some "BG-1"]; [Some "BG-2"; Some "BG-1"];
             [Some "BT-1"; Some "BG-1"; Some "BG-2"]; [Some "BT-2"; Some "BG-1"];
             [Some "BG-3"]; [Some "BT-3"; Some "BG-3"]].
Proof.
  intros rows.
  assert (H : nested 0 rows).
  { cbn. repeat split; try (eexists; reflexivity); lia. }
  split; [exact H|]. rewrite (extract_hierarchy_ancestors rows H). reflexivity.
Defined.

End Hierarchy.

(* ================================================================== *)
(** ** [prepopulate] and [write_guidance_pair]: the XPaths of a term *)

Section XPaths.
Import Py Frame Commands.

Lemma insert_sorted_perm (x : string) (l : list string) :
  Permutation (insert_sorted x l) (x :: l).
Proof.
  induction l as [|y l IH]; simpl; [apply Permutation_refl|].
  destruct (String.leb x y); [apply Permutation_refl|].
  apply perm_trans with (y :: x :: l); [now apply perm_skip|apply perm_swap].
Qed.

(** [sorted] rearranges. *)
Lemma sorted_perm (l : list string) : Permutation (sorted l) l.
Proof.
  induction l as [|x l IH]; simpl; [apply perm_nil|].
  apply perm_trans with (x :: sorted l);
    [apply insert_sorted_perm|now apply perm_skip].
Qed.

Lemma split_app_sep (c : ascii) (x rest : string) :
  contains c x = false ->
  split c (x ++ String c rest) = x :: split c rest.
Proof.
  induction x as [|a x IH]; simpl; intros H.
  - now rewrite Ascii.eqb_refl.
  - apply orb_false_iff in H as [Ha Hx]. rewrite Ha, (IH Hx). reflexivity.
Qed.

(** Texts without the separator, joined and split again, are there
    again. *)
Lemma split_join (c : ascii) (l : list string) :
  l <> [] ->
  (forall x, In x l -> contains c x = false) ->
  split c (String.concat (String c "") l) = l.
Proof.
  induction l as [|x l IH]; intros Hne H; [congruence|].
  destruct l as [|y l].
  - simpl. apply split_without_sep. apply H. now left.
  - change (String.concat (String c "") (x :: y :: l))
      with (x ++ String c (String.concat (String c "") (y :: l)))%string.
    rewrite split_app_sep by (apply H; now left).
    rewrite IH; [reflexivity|discriminate|]. intros z Hz. apply H. now right.
Qed.

Lemma add_xpaths (data : list (xpath_row string)) (current_row : xpath_row (list string)) :
  XPATH current_row <> [] ->
  (forall x, In x (XPATH current_row) -> contains ";" x = false) ->
  flat_map (fun r => split ";" (XPATH r)) (add data current_row)
  = flat_map (fun r => split ";" (XPATH r)) data ++ sorted (XPATH current_row).
Proof.
  intros Hne H. unfold add. rewrite flat_map_app. cbn [flat_map XPATH set_XPATH].
  rewrite app_nil_r, split_join; [reflexivity| |].
  - intros E. apply Hne.
    apply Permutation_nil. rewrite <- E. apply sorted_perm.
  - intros x Hx. apply H. apply Permutation_in with (sorted (XPATH current_row));
      [apply sorted_perm|exact Hx].
Qed.

Lemma combine_loop_xpaths (rows : list (xpath_row string)) :
  forall data current_row,
    XPATH current_row <> [] ->
    (forall x, In x (XPATH current_row) -> contains ";" x = false) ->
    (forall r, In r rows -> contains ";" (XPATH r) = false) ->
    Permutation
      (flat_map (fun r => split ";" (XPATH r)) (combine_loop rows data current_row))
      (flat_map (fun r => split ";" (XPATH r)) data
       ++ XPATH current_row ++ map (@XPATH string) rows).
Proof.
  induction rows as [|row rows IH]; intros data cur Hne Hcur Hrows.
  - cbn [combine_loop map]. rewrite add_xpaths by assumption.
    rewrite app_nil_r. apply Permutation_app_head, sorted_perm.
  - cbn [combine_loop map].
    assert (Hrow : contains ";" (XPATH row) = false) by (apply Hrows; now left).
    assert (Hrest : forall r, In r rows -> contains ";" (XPATH r) = false)
      by (intros r Hr; apply Hrows; now right).
    destruct (cell_ne (BT_ID row) (BT_ID cur)).
    + destruct (XPATH cur) as [|x0 xs] eqn:Ex; [congruence|]. rewrite <- Ex in *.
      eapply perm_trans.
      * apply IH; [discriminate| |exact Hrest].
        cbn [XPATH set_XPATH]. intros x [<-|[]]. exact Hrow.
      * rewrite add_xpaths by assumption. cbn [XPATH set_XPATH].
        rewrite <- !app_assoc. apply Permutation_app_head.
        apply Permutation_app_tail, sorted_perm.
    + eapply perm_trans.
      * apply IH; cbn [XPATH set_XPATH]; [now destruct (XPATH cur)| |exact Hrest].
        intros x Hx. apply in_app_or in Hx as [Hx|[<-|[]]]; [now apply Hcur|exact Hrow].
      * cbn [XPATH set_XPATH]. rewrite <- !app_assoc. apply Permutation_refl.
Qed.

(** The rows combined by [prepopulate] hold, once their "XPATH" is split
    at the semicolons, the XPaths of the table, each as often as the table
    has it, provided that the table has a row and that no XPath has a
    semicolon; out of an empty table comes one row, without "BT ID" and
    with an empty "XPATH". *)
Theorem combine_xpaths_keeps_xpaths (df_xpath : list (xpath_row string)) :
  (df_xpath <> [] ->
   (forall r, In r df_xpath -> contains ";" (XPATH r) = false) ->
   Permutation (flat_map (fun r => split ";" (XPATH r)) (combine_xpaths df_xpath))
               (map (@XPATH string) df_xpath))
  /\ combine_xpaths [] = [XpathRow "" None None None].
Proof.
  split; [|reflexivity].
  intros Hne H. destruct df_xpath as [|row rows]; [congruence|].
  unfold combine_xpaths. cbn [combine_loop BT_ID XPATH].
  replace (cell_ne (BT_ID row) None) with true by (now destruct (BT_ID row)).
  eapply perm_trans.
  - apply combine_loop_xpaths; cbn [XPATH set_XPATH]; [discriminate| |].
    + intros x [<-|[]]. apply H. now left.
    + intros r Hr. apply H. now right.
  - apply Permutation_refl.
Qed.

Lemma combine_xpaths_keeps_xpaths_witness :
  let df_xpath := [XpathRow "/b" (Some "BT-1") None None;
                   XpathRow "/a" (Some "BT-1") None None;
                   XpathRow "/c" (Some "BT-2") None None] in
  map (@XPATH string) (combine_xpaths df_xpath) = ["/a;/b"; "/c"]
  /\ Permutation (flat_map (fun r => split ";" (XPATH r)) (combine_xpaths df_xpath))
                 ["/b"; "/a"; "/c"].
Proof.
  intros df_xpath. split; [reflexivity|].
  apply (proj1 (combine_xpaths_keeps_xpaths df_xpath)); [discriminate|].
  intros r [<-|[<-|[<-|[]]]]; reflexivity.
Defined.

Lemma NoDup_snoc (A : Type) (l : list A) (a : A) :
  NoDup l -> ~ In a l -> NoDup (l ++ [a]).
Proof.
  intros Hl Ha. apply Permutation_NoDup with (a :: l).
  - apply Permutation_cons_append.
  - now constructor.
Qed.

Lemma combine_loop_ids (rows : list (xpath_row string)) :
  forall ids data c current_row,
    map (@BT_ID string) rows = map Some ids ->
    BT_ID current_row = Some c ->
    grouped (c :: ids) ->
    NoDup (map (@BT_ID string) data ++ [Some c]) ->
    (forall y, In (Some y) (map (@BT_ID string) data) -> ~ In y (c :: ids)) ->
    NoDup (map (@BT_ID string) (combine_loop rows data current_row)).
Proof.
  induction rows as [|row rows IH]; intros ids data c cur Hids Hc Hg Hnd Hdis.
  - cbn [combine_loop]. unfold add. rewrite map_app. cbn [map BT_ID set_XPATH].
    now rewrite Hc.
  - destruct ids as [|x ids]; [discriminate|].
    cbn [map] in Hids. injection Hids as Hx Hids.
    cbn [combine_loop]. rewrite Hx, Hc. cbn [cell_ne].
    cbn [grouped] in Hg. destruct Hg as [Hcx Hg].
    destruct (String.eqb_spec x c) as [->|Hne]; cbn [negb].
    + apply IH with (ids := ids) (c := c);
        [exact Hids|exact Hc|exact Hg|exact Hnd|].
      intros y Hy Hin. apply (Hdis y Hy). destruct Hin as [<-|Hin]; [now left|].
      right. now right.
    + assert (Hcn : ~ In c (x :: ids)).
      { destruct Hcx as [E|Hn]; [congruence|exact Hn]. }
      assert (Hd : map (@BT_ID string)
                       (match XPATH cur with
                        | [] => data
                        | _ => add data cur
                        end) ++ [Some x]
                   = (map (@BT_ID string) data ++ [Some c]) ++ [Some x]
                   \/ map (@BT_ID string)
                          (match XPATH cur with
                           | [] => data
                           | _ => add data cur
                           end) = map (@BT_ID string) data).
      { destruct (XPATH cur); [now right|left].
        unfold add. rewrite map_app. cbn [map BT_ID set_XPATH]. now rewrite Hc. }
      apply IH with (ids := ids) (c := x); [exact Hids|exact Hx|exact Hg| |].
      * destruct Hd as [-> | ->].
        -- apply NoDup_snoc; [exact Hnd|].
           intros Hin. apply in_app_or in Hin as [Hin|[[= E]|[]]]; [|congruence].
           apply (Hdis x Hin). right. now left.
        -- apply NoDup_snoc.
           ++ pose proof (NoDup_remove_1 _ _ _ Hnd) as N.
              now rewrite app_nil_r in N.
           ++ intros Hin. apply (Hdis x Hin). right. now left.
      * intros y Hy Hin.
        assert (Hy' : In (Some y) (map (@BT_ID string) data) \/ y = c).
        { destruct (XPATH cur); [now left|].
          unfold add in Hy. rewrite map_app in Hy. cbn [map BT_ID set_XPATH] in Hy.
          rewrite Hc in Hy. apply in_app_or in Hy as [Hy|[[= ->]|[]]]; auto. }
        destruct Hy' as [Hy'| ->]; [|contradiction].
        apply (Hdis y Hy'). now right.
Qed.

(** Where the rows of the XPath table with the same "BT ID" follow one
    another, as they do in the sorted table, and all have a "BT ID", the
    rows combined by [prepopulate] have each a "BT ID" of their own. *)
Theorem combine_xpaths_one_row_per_term (df_xpath : list (xpath_row string))
        (ids : list string) :
  map (@BT_ID string) df_xpath = map Some ids ->
  grouped ids ->
  NoDup (map (@BT_ID string) (combine_xpaths df_xpath)).
Proof.
  intros Hids Hg. destruct df_xpath as [|row rows].
  - cbn. constructor; [intros []|constructor].
  - destruct ids as [|x ids]; [discriminate|].
    cbn [map] in Hids. injection Hids as Hx Hids.
    unfold combine_xpaths. cbn [combine_loop BT_ID XPATH].
    replace (cell_ne (BT_ID row) None) with true by (now destruct (BT_ID row)).
    apply combine_loop_ids with (ids := ids) (c := x);
      [exact Hids|exact Hx|exact Hg| |intros y []].
    constructor; [intros []|constructor].
Qed.

Lemma combine_xpaths_one_row_per_term_witness :
  let df_xpath := [XpathRow "/b" (Some "BT-1") None None;
                   XpathRow "/a" (Some "BT-1") None None;
                   XpathRow "/c" (Some "BT-2") None None] in
  grouped ["BT-1"; "BT-1"; "BT-2"]
  /\ NoDup (map (@BT_ID string) (combine_xpaths df_xpath)).
Proof.
  intros df_xpath.
  assert (G : grouped ["BT-1"; "BT-1"; "BT-2"]).
  { cbn. repeat split; try (now left).
    right. intros [E|[]]. discriminate E. }
  split; [exact G|].
  apply (@combine_xpaths_one_row_per_term df_xpath ["BT-1"; "BT-1"; "BT-2"] eq_refl G).
Defined.

(** The joined XPaths written to the CSV file come back as lists in the
    JSON file: a column of missing values and of lists joined by
    semicolons, none of them empty and no XPath with a semicolon, is split
    by [write_guidance_pair] into these lists. *)
Theorem json_eforms_xpath_splits (column : list (option (list string))) :
  (forall xpaths, In (Some xpaths) column ->
                  xpaths <> [] /\ forall x, In x xpaths -> contains ";" x = false) ->
  json_eforms_xpath
    (map (fun cell => match cell with
                      | Some xpaths => XStr (String.concat ";" xpaths)
                      | None => XNaN
                      end) column)
  = map (fun cell => match cell with
                     | Some xpaths => XList xpaths
                     | None => XNaN
                     end) column.
Proof.
  intros H. unfold json_eforms_xpath.
  replace (existsb is_list _) with false.
  - rewrite map_map. apply map_ext_in. intros [xpaths|] Hin; [|reflexivity].
    destruct (H xpaths Hin) as [Hne Hx].
    now rewrite (split_join ";" Hne Hx).
  - symmetry. clear H. induction column as [|[x|] l IH]; simpl; auto.
Qed.

Lemma json_eforms_xpath_splits_witness :
  json_eforms_xpath [XStr "/a;/b"; XNaN; XStr "/c"]
  = [XList ["/a"; "/b"]; XNaN; XList ["/c"]].
Proof.
  apply (json_eforms_xpath_splits [Some ["/a"; "/b"]; None; Some ["/c"]]).
  intros xpaths [[= <-]|[[=]|[[= <-]|[]]]];
    (split; [discriminate|]); intros x Hx;
    repeat (destruct Hx as [<-|Hx]; [reflexivity|]); destruct Hx.
Defined.

End XPaths.

(* ================================================================== *)
(** ** [extract_xpath_mapping] *)

Section XPathTable.
Import Py Commands.

Lemma lstrip_by_without (c : ascii) (p : ascii -> bool) (s : string) :
  contains c s = false -> contains c (lstrip_by p s) = false.
Proof.
  induction s as [|a s IH]; simpl; intros H; [reflexivity|].
  destruct (p a); [|exact H].
  apply orb_false_iff in H as [_ H]. now apply IH.
Qed.

Lemma rstrip_by_without (c : ascii) (p : ascii -> bool) (s : string) :
  contains c s = false -> contains c (rstrip_by p s) = false.
Proof.
  induction s as [|a s IH]; simpl; intros H; [reflexivity|].
  apply orb_false_iff in H as [Ha H]. specialize (IH H).
  destruct (rstrip_by p s) as [|b t].
  - destruct (p a); simpl; [reflexivity|now rewrite Ha].
  - simpl in *. now rewrite Ha.
Qed.

Lemma replace_go_without_char (c : ascii) (old new : string) (s : string) :
  contains c new = false ->
  forall skip, contains c s = false ->
               contains c (replace_go old new s skip) = false.
Proof.
  intros Hnew. induction s as [|a s IH]; intros skip H; [reflexivity|].
  simpl in H. apply orb_false_iff in H as [Ha H].
  cbn [replace_go]. destruct skip as [|k]; [|now apply IH].
  destruct (startswith old (String a s)).
  - rewrite contains_app, Hnew. now apply IH.
  - simpl. rewrite Ha. now apply IH.
Qed.

(** Every newline is replaced. *)
Lemma replace_newline_without (s : string) :
  contains nl (replace NL " " s) = false.
Proof.
  unfold replace. induction s as [|a s IH]; [reflexivity|].
  cbn [replace_go].
  assert (E : startswith NL (String a s) = Ascii.eqb nl a).
  { change NL with (String nl ""). cbn [startswith]. apply andb_true_r. }
  rewrite E. replace (String.length NL - 1) with 0 by reflexivity.
  destruct (Ascii.eqb_spec nl a) as [<-|Ha].
  - exact IH.
  - cbn [contains]. rewrite IH.
    destruct (Ascii.eqb_spec a nl) as [->|_]; [congruence|reflexivity].
Qed.

Lemma text_without_newline (row cells : list string) :
  text row = Done cells ->
  forall cell, In cell cells -> contains nl cell = false.
Proof.
  unfold text.
  assert (H : forall cell, In cell (map (fun cell => strip_ws (replace NL " " cell)) row) ->
                           contains nl cell = false).
  { intros cell Hin. apply in_map_iff in Hin as (x & <- & _).
    unfold strip_ws. apply rstrip_by_without, lstrip_by_without, replace_newline_without. }
  destruct (map _ row) as [|cell0 rest]; [discriminate|].
  intros [= <-] cell [<-|Hin].
  - unfold replace. apply replace_go_without_char; [reflexivity|].
    apply H. now left.
  - apply H. now right.
Qed.

Lemma xpath_rows_cells (ndash : string) (rows : list (list string)) :
  forall data,
    xpath_rows ndash rows = Done data ->
    forall cells, In cells data ->
      (exists xpath cell1 rest,
          cells = xpath :: cell1 :: rest
          /\ startswith "/" xpath = true
          /\ (ndash <> "" -> cell1 <> ndash))
      /\ forall cell, In cell cells -> contains nl cell = false.
Proof.
  induction rows as [|row rows IH]; intros data H cells Hin.
  - injection H as <-. destruct Hin.
  - cbn [xpath_rows] in H.
    destruct (text row) as [e|[|xpath cs]] eqn:T; try discriminate.
    destruct (startswith "/" xpath) eqn:S; cbn [negb] in H;
      [|exact (IH data H cells Hin)].
    destruct cs as [|cell1 cs']; [discriminate|].
    destruct (xpath_rows ndash rows) as [e|data'] eqn:R; [discriminate|].
    injection H as <-. destruct Hin as [<-|Hin]; [|exact (IH data' eq_refl cells Hin)].
    pose proof (text_without_newline row T) as N.
    split.
    + destruct (String.eqb_spec cell1 ndash) as [->|Hne].
      * exists xpath, "", cs'. repeat split; [exact S|]. intros Hd E. now apply Hd.
      * exists xpath, cell1, cs'. repeat split; [exact S|]. now intros _.
    + intros cell [<-|Hc]; [apply N; now left|].
      destruct (String.eqb cell1 ndash).
      * destruct Hc as [<-|Hc]; [reflexivity|]. apply N. right. now right.
      * apply N. now right.
Qed.

(** The table that [extract_xpath_mapping] writes has the four headings
    of the document, and in each of its rows an XPath that starts with a
    slash, a second cell that is not the n-dash, and no newline in any
    cell: the subheadings are left out. *)
Theorem extract_xpath_mapping_rows (ndash : string) (docx : list (list (list string)))
        (columns : list string) (data : list (list string)) :
  extract_xpath_mapping ndash docx = Done (columns, data) ->
  columns = headers
  /\ forall cells, In cells data ->
       (exists xpath cell1 rest,
           cells = xpath :: cell1 :: rest
           /\ startswith "/" xpath = true
           /\ (ndash <> "" -> cell1 <> ndash))
       /\ forall cell, In cell cells -> contains nl cell = false.
Proof.
  unfold extract_xpath_mapping.
  destruct docx as [|table [|]]; try discriminate.
  destruct table as [|row rows]; [discriminate|].
  destruct (text row) as [e|cols]; [discriminate|].
  destruct (list_eq_dec string_dec cols headers) as [->|]; [|discriminate].
  destruct (xpath_rows ndash rows) as [e|d] eqn:R; [discriminate|].
  intros [= <- <-]. split; [reflexivity|].
  exact (xpath_rows_cells ndash rows R).
Qed.

Lemma extract_xpath_mapping_rows_witness :
  let docx := [[["XPATH"; "BT ID"; "BT Name"; "Additional information"];
                ["Notice"; ""; ""; ""];
                [("/*/cbc:ID" ++ NL)%string; "-"; (" Notice" ++ NL ++ "Identifier ")%string; ""]]] in
  extract_xpath_mapping "-" docx
  = Done (headers, [["/*/cbc:ID"; ""; "Notice Identifier"; ""]])
  /\ forall cells, In cells [["/*/cbc:ID"; ""; "Notice Identifier"; ""]] ->
       forall cell, In cell cells -> contains nl cell = false.
Proof.
  intros docx.
  assert (E : extract_xpath_mapping "-" docx
              = Done (headers, [["/*/cbc:ID"; ""; "Notice Identifier"; ""]]))
    by reflexivity.
  split; [exact E|].
  intros cells Hin.
  exact (proj2 (proj2 (extract_xpath_mapping_rows "-" docx E) cells Hin)).
Defined.

End XPathTable.

(* ================================================================== *)
(** ** [update_with_annex] *)

Section Annex.
Import Py Frame Commands.

Lemma has_duplicates_NoDup (l : list string) :
  has_duplicates l = false <-> NoDup l.
Proof.
  induction l as [|x l IH]; cbn [has_duplicates].
  - split; [constructor|reflexivity].
  - rewrite orb_false_iff, IH. split.
    + intros [E N]. constructor; [|exact N].
      intros Hin. assert (T : existsb (String.eqb x) l = true).
      { apply existsb_exists. exists x. split; [exact Hin|apply String.eqb_refl]. }
      rewrite T in E. discriminate.
    + intros N. inversion N as [|? ? Hx N']; subst. split; [|exact N'].
      destruct (existsb (String.eqb x) l) eqn:E; [|reflexivity].
      apply existsb_exists in E as (y & Hy & E). apply String.eqb_eq in E.
      subst y. contradiction.
Qed.

Lemma at_Done (df_annex : list term) (label column value : option string) :
  at_ df_annex label column = Done value ->
  exists a l c,
    label = Some l /\ column = Some c /\ In a df_annex /\ t_ID a = l
    /\ List.find (fun row => String.eqb (t_ID row) l) df_annex = Some a
    /\ lookup_column c (columns_of a) = Some value.
Proof.
  unfold at_. destruct label as [l|]; [|discriminate].
  destruct column as [c|]; [|discriminate].
  destruct (List.find _ df_annex) as [a|] eqn:F; [|discriminate].
  destruct (lookup_column c (columns_of a)) as [v|] eqn:L; [|discriminate].
  intros [= <-]. exists a, l, c.
  destruct (find_some _ _ F) as [Hin E]. apply String.eqb_eq in E.
  repeat split; assumption.
Qed.

Lemma at_Failed (df_annex : list term) (label column : option string) (e : error) :
  at_ df_annex label column = Failed e -> e = KeyError.
Proof.
  unfold at_. destruct label; [|congruence]. destruct column; [|congruence].
  destruct (List.find _ df_annex) as [a|]; [|congruence].
  destruct (lookup_column _ _); congruence.
Qed.

Lemma at_unknown (df_annex : list term) (label column : option string) :
  (forall a, In a df_annex -> label <> Some (t_ID a)) ->
  at_ df_annex label column = Failed KeyError.
Proof.
  intros H. unfold at_. destruct label as [l|]; [|reflexivity].
  destruct column as [c|]; [|reflexivity].
  destruct (List.find _ df_annex) as [a|] eqn:F; [|reflexivity].
  destruct (find_some _ _ F) as [Hin E]. apply String.eqb_eq in E.
  elim (H a Hin). now rewrite E.
Qed.

Lemma annex_loop_Failed (df_annex : list term) (df : list guidance_row) (e : error) :
  annex_loop df_annex df = Failed e -> e = KeyError.
Proof.
  induction df as [|row df IH]; cbn [annex_loop]; [discriminate|].
  destruct (at_ df_annex (g_BT row) (g_eformsNotice row)) eqn:A1;
    [intros [= <-]; exact (at_Failed _ _ _ A1)|].
  destruct (at_ df_annex (g_BT row) (Some "Description")) eqn:A2;
    [intros [= <-]; exact (at_Failed _ _ _ A2)|].
  destruct (at_ df_annex (g_BT row) (Some "Data type")) eqn:A3;
    [intros [= <-]; exact (at_Failed _ _ _ A3)|].
  destruct (annex_loop df_annex df); [|discriminate].
  intros [= <-]. now apply IH.
Qed.

Lemma annex_loop_unknown (df_annex : list term) (df : list guidance_row)
      (row : guidance_row) :
  In row df ->
  (forall a, In a df_annex -> g_BT row <> Some (t_ID a)) ->
  annex_loop df_annex df = Failed KeyError.
Proof.
  intros Hin Hno.
  destruct (annex_loop df_annex df) as [e|rows] eqn:E;
    [now rewrite (annex_loop_Failed _ _ E)|].
  exfalso. revert rows E. induction df as [|r df IH]; intros rows E; [destruct Hin|].
  cbn [annex_loop] in E.
  destruct (at_ df_annex (g_BT r) (g_eformsNotice r)) eqn:A1; [discriminate|].
  destruct (at_ df_annex (g_BT r) (Some "Description")); [discriminate|].
  destruct (at_ df_annex (g_BT r) (Some "Data type")); [discriminate|].
  destruct (annex_loop df_annex df) as [e|rows'] eqn:E'; [discriminate|].
  destruct Hin as [->|Hin]; [|exact (IH Hin rows' eq_refl)].
  rewrite (at_unknown _ _ Hno) in A1. discriminate.
Qed.

Lemma annex_loop_Done (df_annex : list term) (df : list guidance_row) :
  forall rows,
    annex_loop df_annex df = Done rows ->
    Forall2 (fun row new => exists a, In a df_annex /\ updated a row (fill_columns new))
            df rows.
Proof.
  induction df as [|row df IH]; intros rows E; cbn [annex_loop] in E.
  - injection E as <-. constructor.
  - destruct (at_ df_annex (g_BT row) (g_eformsNotice row)) as [|status] eqn:A1;
      [discriminate|].
    destruct (at_ df_annex (g_BT row) (Some "Description")) as [|description] eqn:A2;
      [discriminate|].
    destruct (at_ df_annex (g_BT row) (Some "Data type")) as [|datatype] eqn:A3;
      [discriminate|].
    destruct (annex_loop df_annex df) as [|rows'] eqn:E'; [discriminate|].
    injection E as <-. constructor; [|now apply IH].
    apply at_Done in A1 as (a & l & c & Hl & Hc & Hin & Hid & F & L1).
    apply at_Done in A2 as (a2 & l2 & c2 & Hl2 & Hc2 & _ & _ & F2 & L2).
    apply at_Done in A3 as (a3 & l3 & c3 & Hl3 & Hc3 & _ & _ & F3 & L3).
    rewrite Hl in Hl2, Hl3. injection Hl2 as <-. injection Hl3 as <-.
    injection Hc2 as <-. injection Hc3 as <-.
    rewrite F in F2, F3. injection F2 as <-. injection F3 as <-.
    exists a. split; [exact Hin|]. exists c, status. subst l.
    repeat split; assumption.
Qed.

Lemma legal_status_of_not_CM_EM (status : option string) :
  fillna (legal_status_of status) <> "CM" /\ fillna (legal_status_of status) <> "EM".
Proof.
  destruct status as [s|]; cbn [legal_status_of]; [|split; discriminate].
  destruct (String.eqb_spec s "CM") as [->|H1]; cbn [orb fillna];
    [split; discriminate|].
  destruct (String.eqb_spec s "EM") as [->|H2]; cbn [orb fillna];
    [split; discriminate|].
  split; assumption.
Qed.

(** Where the columns of the annex have distinct names, the guidance that
    [update_with_annex] writes has a row for each row it read, in the same
    order.  The row has the legal status, the description and the data
    type of the one row of the annex whose "ID" is its "BT", the legal
    status from the column of its eForms notice, "M" for "CM" and "EM" and
    the empty text for a missing one; its guidance, status and comments are
    not missing, and its other cells are as they were. *)
Theorem update_with_annex_rows (annex : list annex_row) (df out : list guidance_row) :
  (forall a, In a (annex_rows annex) -> NoDup (map fst (columns_of a))) ->
  update_with_annex annex df = Done out ->
  NoDup (map t_ID (annex_rows annex))
  /\ Forall2 (fun row new =>
                exists a, In a (annex_rows annex) /\ updated a row new
                          /\ g_legal_status new <> Some "CM"
                          /\ g_legal_status new <> Some "EM")
             df out.
Proof.
  intros _. unfold update_with_annex, set_index.
  destruct (annex_rows annex) as [|a0 rows] eqn:R; [discriminate|].
  destruct (has_duplicates (map t_ID (a0 :: rows))) eqn:D; [discriminate|].
  destruct (annex_loop (a0 :: rows) df) as [|rows'] eqn:E; [discriminate|].
  intros [= <-]. split; [now apply has_duplicates_NoDup|].
  apply annex_loop_Done in E. clear R D.
  induction E as [|row new df rows' (a & Hin & U) _ IH]; cbn [map]; constructor;
    [|exact IH].
  exists a. split; [exact Hin|]. split; [exact U|].
  destruct U as (notice & status & _ & _ & _ & -> & _).
  destruct (legal_status_of_not_CM_EM status) as [H1 H2].
  split; congruence.
Qed.

Lemma update_with_annex_rows_witness :
  let annex := [AnnexRow None (Some "+") [("Description", Some "x"); ("Data type", None);
                                          ("1", None); ("2", None)];
                AnnexRow (Some "BT-1") (Some "++")
                         [("Description", Some "d"); ("Data type", Some "Text");
                          ("1", Some "CM"); ("2", None)]] in
  let row := fun notice =>
               GuidanceRow (Some "0") (Some "n") (Some notice) (Some "2") None
                           (XList ["/a"]) (Some "BT-1") None None None None None None in
  let new := fun notice status =>
               GuidanceRow (Some "0") (Some "n") (Some notice) (Some "2") (Some status)
                           (XList ["/a"]) (Some "BT-1") (Some "d") (Some "Text") None
                           (Some "") (Some "") (Some "") in
  update_with_annex annex [row "1"; row "2"] = Done [new "1" "M"; new "2" ""]
  /\ NoDup (map t_ID (annex_rows annex)).
Proof.
  intros annex row new.
  assert (E : update_with_annex annex [row "1"; row "2"] = Done [new "1" "M"; new "2" ""])
    by reflexivity.
  split; [exact E|].
  refine (proj1 (@update_with_annex_rows annex _ _ _ E)).
  intros a [<-|[]]. cbn.
  repeat constructor; cbn; intuition discriminate.
Defined.

(** Where no two rows of the annex have the same "ID", a row of the
    guidance whose "BT" is the "ID" of no row of the annex ends
    [update_with_annex] in a [KeyError]: nothing is written. *)
Theorem update_with_annex_unknown_term (annex : list annex_row) (df : list guidance_row)
        (row : guidance_row) :
  NoDup (map t_ID (annex_rows annex)) ->
  In row df ->
  (forall a, In a (annex_rows annex) -> g_BT row <> Some (t_ID a)) ->
  update_with_annex annex df = Failed KeyError.
Proof.
  intros N Hin Hno. unfold update_with_annex, set_index.
  destruct (annex_rows annex) as [|a0 rows]; [reflexivity|].
  apply has_duplicates_NoDup in N. rewrite N.
  now rewrite (@annex_loop_unknown _ _ _ Hin Hno).
Qed.

Lemma update_with_annex_unknown_term_witness :
  let annex := [AnnexRow (Some "BT-1") (Some "+")
                         [("Description", Some "d"); ("Data type", Some "Text");
                          ("1", Some "M")]] in
  let row := fun term =>
               GuidanceRow (Some "0") None (Some "1") None None XNaN (Some term)
                           None None None None None None in
  update_with_annex annex [row "BT-1"; row "BT-01"] = Failed KeyError.
Proof.
  intros annex row.
  apply (@update_with_annex_unknown_term annex _ (row "BT-01")).
  - cbn. repeat constructor. intros [].
  - right. now left.
  - intros a [<-|[]]. cbn. discriminate.
Defined.

End Annex.

(* ================================================================== *)
(** ** [statistics] *)

Section StatisticsFacts.
Import Py Frame Commands.

Variable percent : nat -> nat -> string.

Lemma shape0_le (A : Type) (p : A -> bool) (df : list A) :
  shape0 p df <= List.length df.
Proof.
  unfold shape0. induction df as [|a df IH]; simpl; [lia|].
  destruct (p a); simpl; lia.
Qed.

Lemma shape0_disjoint (A : Type) (p q : A -> bool) (df : list A) :
  (forall a, p a = true -> q a = false) ->
  shape0 p df + shape0 q df <= List.length df.
Proof.
  intros H. unfold shape0. induction df as [|a df IH]; simpl; [lia|].
  destruct (p a) eqn:P; [rewrite (H a P)|destruct (q a)]; simpl; lia.
Qed.

Lemma shape0_zero (A : Type) (p : A -> bool) (df : list A) :
  shape0 p df = 0 <-> forall a, In a df -> p a = false.
Proof.
  unfold shape0. induction df as [|a df IH]; simpl.
  - split; [intros _ a []|reflexivity].
  - destruct (p a) eqn:P; simpl.
    + split; [discriminate|]. intros H. specialize (H a (or_introl eq_refl)). congruence.
    + rewrite IH. split.
      * intros H b [<-|Hb]; [exact P|now apply H].
      * intros H b Hb. apply H. now right.
Qed.

Lemma drop_duplicates_BT_first (row : stat_row) (df : list stat_row) :
  drop_duplicates_BT [] (row :: df) = row :: drop_duplicates_BT [s_BT row] df.
Proof. reflexivity. Qed.

Lemma imported_not_done (row : stat_row) :
  is_imported row = true -> is_done row = false.
Proof.
  unfold is_imported, is_done. intros H. apply String.eqb_eq in H. now rewrite H.
Qed.

(** No percentage of the statistics is above a hundred: in each quotient
    the rows counted are among those they are compared with.  For the rows
    ready for review this is so because no row is both imported and
    done. *)
Theorem statistics_quotients (df : list stat_row) (n d : nat) :
  In (n, d) (quotients (figures_of df)) -> n <= d.
Proof.
  unfold quotients, figures_of.
  cbn [done_terms total_terms total imported done ready no_issue_no_guidance issue
       issue_no_guidance total_mandatory total_optional done_mandatory done_optional
       issue_mandatory issue_optional In].
  intros H.
  repeat (destruct H as [H|H]; [injection H as <- <-|]); try destruct H;
    try apply shape0_le.
  apply shape0_disjoint, imported_not_done.
Qed.

Lemma statistics_quotients_witness :
  let df := [StatRow "BT-1" "imported from standard forms" "g" "M";
             StatRow "BT-1" "done" "g" "O";
             StatRow "BT-2" "issue #1" "" "O"] in
  In (2, 3) (quotients (figures_of df)) /\ 2 <= 3.
Proof.
  intros df.
  assert (H : In (2, 3) (quotients (figures_of df))) by (right; now left).
  split; [exact H|]. exact (@statistics_quotients df _ _ H).
Defined.

Lemma percentages_cases (qs : list (nat * nat)) :
  (percentages percent qs = Failed ZeroDivisionError
   /\ exists n, In (n, 0) qs)
  \/ (exists ps, percentages percent qs = Done ps
                 /\ forall n d, In (n, d) qs -> d <> 0).
Proof.
  induction qs as [|[n d] qs IH]; cbn [percentages].
  - right. exists []. split; [reflexivity|intros n d []].
  - destruct (Nat.eqb_spec d 0) as [->|Hd].
    + left. split; [reflexivity|]. exists n. now left.
    + destruct IH as [[-> [m Hm]]|(ps & -> & H)].
      * left. split; [reflexivity|]. exists m. now right.
      * right. eexists. split; [reflexivity|].
        intros n' d' [[= <- <-]|Hin]; [exact Hd|now apply (H n' d')].
Qed.

Lemma percentages_length (qs : list (nat * nat)) :
  forall ps, percentages percent qs = Done ps -> List.length ps = List.length qs.
Proof.
  induction qs as [|[n d] qs IH]; intros ps; cbn [percentages].
  - now intros [= <-].
  - destruct (d =? 0); [discriminate|].
    destruct (percentages percent qs) as [|ps']; [discriminate|].
    intros [= <-]. cbn [List.length]. now rewrite (IH ps').
Qed.

(** [statistics] ends in a [ZeroDivisionError] when the guidance has no
    row whose legal status is "M", or none whose legal status is "O", an
    empty guidance among them; it writes its text, in no colour, when the
    guidance has both. *)
Theorem statistics_zero_division (df : list stat_row) :
  (statistics percent df = Failed ZeroDivisionError
   /\ ((forall row, In row df -> s_legal_status row <> "M")
       \/ (forall row, In row df -> s_legal_status row <> "O")))
  \/ (exists ps,
         statistics percent df = Done (Echo None (message (figures_of df) ps))
         /\ List.length ps = 10
         /\ (exists row, In row df /\ s_legal_status row = "M")
         /\ (exists row, In row df /\ s_legal_status row = "O")).
Proof.
  assert (Hz : forall (p : stat_row -> bool), List.length (filter p df) = 0 ->
                                              forall row, In row df -> p row = false).
  { intros p H. now apply shape0_zero. }
  assert (Hp : forall (p : stat_row -> bool), List.length (filter p df) <> 0 ->
                                              exists row, In row df /\ p row = true).
  { intros p H. destruct (filter p df) as [|row l] eqn:F; [now elim H|].
    exists row. apply filter_In. rewrite F. now left. }
  unfold statistics.
  destruct (percentages_cases (quotients (figures_of df)))
    as [[-> [n Hn]]|(ps & E & H)].
  - left. split; [reflexivity|].
    assert (Hm : List.length (filter mandatory df) = 0
                 \/ List.length (filter optional df) = 0).
    { unfold quotients, figures_of in Hn.
      cbn [done_terms total_terms total imported done ready no_issue_no_guidance issue
           issue_no_guidance total_mandatory total_optional done_mandatory done_optional
           issue_mandatory issue_optional In] in Hn.
      assert (Hd : List.length df = 0 -> List.length (filter mandatory df) = 0)
        by (intros H0; now destruct df).
      assert (Ht : List.length (drop_duplicates_BT [] df) = 0 -> List.length df = 0).
      { destruct df as [|row df']; [reflexivity|].
        rewrite drop_duplicates_BT_first. discriminate. }
      repeat (destruct Hn as [Hn|Hn];
              [injection Hn as _ Hn; auto|]).
      destruct Hn. }
    destruct Hm as [Hm|Ho]; [left|right]; intros row Hin E.
    + specialize (Hz mandatory Hm row Hin). unfold mandatory in Hz.
      rewrite E in Hz. discriminate.
    + specialize (Hz optional Ho row Hin). unfold optional in Hz.
      rewrite E in Hz. discriminate.
  - right. exists ps. rewrite E. split; [reflexivity|].
    assert (Hm : List.length (filter mandatory df) <> 0).
    { apply (H (shape0 is_done (filter mandatory df))).
      unfold quotients, figures_of. cbn. tauto. }
    assert (Ho : List.length (filter optional df) <> 0).
    { apply (H (shape0 is_done (filter optional df))).
      unfold quotients, figures_of. cbn. tauto. }
    split.
    + now rewrite (percentages_length _ E).
    + split.
      * destruct (Hp mandatory Hm) as (row & Hin & P). exists row.
        split; [exact Hin|]. now apply String.eqb_eq in P.
      * destruct (Hp optional Ho) as (row & Hin & P). exists row.
        split; [exact Hin|]. now apply String.eqb_eq in P.
Qed.

End StatisticsFacts.

(* ================================================================== *)
(** ** The exceptions of a run, and the step over an entry *)

Section Exceptions.
Import Py Re Frame Manage Shape.

Lemma classify_Raise (sheet : string) (e : exn) :
  classify sheet = Raise e -> e = ClickException (unknown_sheet sheet).
Proof.
  intros H. destruct (classify_cases sheet) as [E|[(g1 & sf & E)|E]];
    rewrite E in H; congruence.
Qed.

Lemma process_sheet_Raised (sheet : string) (table : list sheet_row) (e : exn) :
  snd (process_sheet sheet table) = Raised e ->
  (exists message, e = ClickException message)
  \/ (e = AttributeError
      /\ (exists g1 sf, classify sheet = Accept g1 sf)
      /\ float64 (map c_Name table) = true).
Proof.
  unfold process_sheet. destruct (classify sheet) as [|e'|g1 sf] eqn:C; cbn [snd].
  - discriminate.
  - intros [= <-]. rewrite (classify_Raise _ C). left. now eexists.
  - destruct (normalize g1 sf table) as [e'|df] eqn:N; cbn [snd].
    + intros [= <-]. apply normalize_Raised in N as [->|[-> F]].
      * left. now eexists.
      * right. split; [reflexivity|]. split; [now exists g1, sf|exact F].
    + destruct (iterrows g1 sf df) as [out df'].
      unfold explode_Level_Element. destruct (forallb _ df'); cbn [snd]; [discriminate|].
      intros [= <-]. left. now eexists.
Qed.

Lemma process_sheet_None (sheet : string) (table : list sheet_row) :
  snd (process_sheet sheet table) = Returned None -> classify sheet = Ignore.
Proof.
  unfold process_sheet. destruct (classify sheet) as [|e'|g1 sf]; cbn [snd];
    [reflexivity|discriminate|].
  destruct (normalize g1 sf table) as [e'|df]; cbn [snd]; [discriminate|].
  destruct (iterrows g1 sf df) as [out df'].
  unfold explode_Level_Element. destruct (forallb _ df'); cbn [snd]; discriminate.
Qed.

Lemma sheets_loop_Raised (sheets : list (string * list sheet_row)) :
  forall dfs out e,
    sheets_loop sheets dfs = (out, Raised e) ->
    (exists message, e = ClickException message)
    \/ (e = AttributeError
        /\ exists sheet table g1 sf,
             In (sheet, table) sheets
             /\ classify sheet = Accept g1 sf
             /\ float64 (map c_Name table) = true).
Proof.
  induction sheets as [|[sheet table] sheets IH]; intros dfs out e H;
    cbn [sheets_loop] in H; [discriminate|].
  assert (Hin : forall e', (exists message, e' = ClickException message)
                           \/ (e' = AttributeError
                               /\ exists s t g1 sf,
                                    In (s, t) sheets
                                    /\ classify s = Accept g1 sf
                                    /\ float64 (map c_Name t) = true) ->
                           (exists message, e' = ClickException message)
                           \/ (e' = AttributeError
                               /\ exists s t g1 sf,
                                    In (s, t) ((sheet, table) :: sheets)
                                    /\ classify s = Accept g1 sf
                                    /\ float64 (map c_Name t) = true)).
  { intros e' [L|[-> (s & t & g1 & sf & I & C & F)]]; [now left|right].
    split; [reflexivity|]. exists s, t, g1, sf. split; [now right|now split]. }
  pose proof (@process_sheet_Raised sheet table) as R.
  destruct (process_sheet sheet table) as [o [e'|[df|]]]; cbn [snd] in R.
  - injection H as _ <-.
    destruct (R e' eq_refl) as [L|[-> [(g1 & sf & C) F]]]; [now left|right].
    split; [reflexivity|]. exists sheet, table, g1, sf. split; [now left|now split].
  - destruct (sheets_loop sheets (dfs ++ [df])) as [o' r] eqn:E.
    injection H as _ ->. exact (Hin _ (IH _ _ _ E)).
  - destruct (sheets_loop sheets dfs) as [o' r] eqn:E.
    injection H as _ ->. exact (Hin _ (IH _ _ _ E)).
Qed.

Lemma sheets_loop_frames (sheets : list (string * list sheet_row)) :
  forall dfs out res,
    sheets_loop sheets dfs = (out, Returned res) ->
    List.length dfs <= List.length res
    /\ (List.length res = List.length dfs ->
        forall sheet table, In (sheet, table) sheets -> classify sheet = Ignore).
Proof.
  induction sheets as [|[sheet table] sheets IH]; intros dfs out res H;
    cbn [sheets_loop] in H.
  - injection H as _ <-. split; [lia|intros _ s t []].
  - pose proof (@process_sheet_None sheet table) as N.
    destruct (process_sheet sheet table) as [o [e'|[df|]]]; cbn [snd] in N;
      [discriminate| |].
    + destruct (sheets_loop sheets (dfs ++ [df])) as [o' r] eqn:E.
      injection H as _ ->. destruct (IH _ _ _ E) as [L _].
      rewrite length_app in L. cbn [List.length] in L. split; lia.
    + destruct (sheets_loop sheets dfs) as [o' r] eqn:E.
      injection H as _ ->. destruct (IH _ _ _ E) as [L A].
      split; [exact L|]. intros Hl s t [[= <- <-]|Hin]; [now apply N|].
      exact (A Hl s t Hin).
Qed.

(** A run that ends in an exception ends in a [ClickException]; or in the
    [AttributeError] of [df['Name'].str], and then a sheet that is kept has
    a "Name" column without a text; or in the [ValueError] of [pd.concat]
    for want of a frame, and then every sheet of the archive was one to
    ignore and nothing was written.  No [AttributeError] is raised for a
    group without a match, and no [ValueError] of [explode] is left as it
    is. *)
Theorem run_exceptions (files : list (list (string * list sheet_row)))
        (out : list echo) (e : exn) :
  extract_indices_mapping files = (out, Raised e) ->
  (exists message, e = ClickException message)
  \/ (e = AttributeError
      /\ exists sheet table g1 sf,
           In (sheet, table) (concat files)
           /\ classify sheet = Accept g1 sf
           /\ float64 (map c_Name table) = true)
  \/ (e = ValueError "No objects to concatenate"
      /\ out = []
      /\ forall sheet table, In (sheet, table) (concat files) -> ignored sheet = true).
Proof.
  unfold extract_indices_mapping.
  destruct (sheets_loop (concat files) []) as [o [e'|res]] eqn:E.
  - intros [= <- <-].
    destruct (sheets_loop_Raised _ _ E) as [L|R]; [now left|right; now left].
  - destruct res as [|df res]; [|discriminate].
    intros [= <- <-]. right. right. split; [reflexivity|].
    destruct (sheets_loop_frames _ _ E) as [_ A].
    assert (I : forall sheet table, In (sheet, table) (concat files) -> ignored sheet = true).
    { intros sheet table Hin. specialize (A eq_refl sheet table Hin).
      unfold classify in A. destruct (ignored sheet); [reflexivity|].
      destruct (search keep_sheet_regex sheet) as [m|]; [|discriminate].
      destruct (group 1 m), (group 2 m); discriminate. }
    split; [|exact I].
    clear A. revert o E I. generalize (concat files) as sheets.
    induction sheets as [|[sheet table] sheets IH]; intros o E I;
      cbn [sheets_loop] in E.
    + now injection E as <-.
    + rewrite ignored_process_sheet in E by (apply (I sheet table); now left).
      destruct (sheets_loop sheets []) as [o' r] eqn:E'.
      injection E as <- ->. cbn [app].
      exact (IH o' eq_refl (fun s t H => I s t (or_intror H))).
Qed.

Lemma run_exceptions_witness :
  let row := SheetRow None None (Some "BT-1") None (Some "x") (Some "I.1") [] in
  let files := [[("Legend", []); ("eForm15 vs SF07", [row; row])]] in
  extract_indices_mapping files = ([], Raised AttributeError)
  /\ exists sheet table g1 sf,
       In (sheet, table) (concat files)
       /\ classify sheet = Accept g1 sf
       /\ float64 (map c_Name table) = true.
Proof.
  intros row files.
  assert (E : extract_indices_mapping files = ([], Raised AttributeError))
    by reflexivity.
  split; [exact E|].
  destruct (run_exceptions files E) as [[message H]|[[_ H]|[H _]]];
    [discriminate|exact H|discriminate].
Defined.

(** Where the loop deletes an entry, it steps over the one after it: that
    entry stays with its "Element", whatever its "Level" starts with, and
    the loop goes on with the entries after it. *)
Theorem remove_B_steps_over (a b x y : string) (Level Element : list string) :
  startswith "B" a = true ->
  remove_B (a :: b :: Level) (x :: y :: Element)
  = (b :: fst (remove_B Level Element), y :: snd (remove_B Level Element)).
Proof.
  intros H. rewrite !remove_B_is_from. cbn [remove_B_from]. rewrite H.
  now destruct (remove_B_from Level Element).
Qed.

Lemma remove_B_steps_over_witness :
  remove_B ["B.1"; "B.2"; "B.3"; "I.1"] ["w"; "x"; "y"; "z"]
  = (["B.2"; "I.1"], ["x"; "z"]).
Proof.
  now rewrite (@remove_B_steps_over "B.1" "B.2" "w" "x" ["B.3"; "I.1"] ["y"; "z"] eq_refl).
Defined.

End Exceptions.
